(** * Scheduled-job orchestration and database bootstrap of the Upgrade backend

    A shallow embedding of
    - [src/packages/Upgrade/src/api/services/ScheduledJobService.ts]
      (class [ScheduledJobService]) and
    - the loader [typeormLoader],
    together with the properties that the specification states about them.

    Both pieces of code are glue around external collaborators (two ORM
    repositories, the AWS step-function client, [ExperimentService], the
    logger, [typeorm]'s [createConnection]).  None of these collaborators is
    part of the source, so nothing is assumed about them: every call the
    code issues is recorded, in order, and the answer to a call is given by
    an arbitrary function of the calls issued before it.  An [await]ed call
    either resolves with a value or rejects; a rejection aborts the rest of
    the [async] function unless a [try]/[catch] intercepts it. *)

From Stdlib Require Import String List Bool ZArith Lia.
Import ListNotations.
Local Open Scope list_scope.
Local Open Scope string_scope.

Set Implicit Arguments.

(** ** Values *)

(** Modelled from the spec: the enumeration [SCHEDULE_TYPE] of
    [../models/ScheduledJob], whose declaration is not part of the source.
    A scheduled job stands for "a future start/end" of an experiment; the
    two members are those the source names. *)
Inductive SCHEDULE_TYPE : Type :=
| START_EXPERIMENT
| END_EXPERIMENT.

(** Modelled from the spec: [EXPERIMENT_STATE] of [ees_types], whose
    declaration is not part of the source, "an enumerated status value on an
    experiment entity".  The source names four of its members; every other
    member is [OTHER_STATE]. *)
Inductive EXPERIMENT_STATE : Type :=
| SCHEDULED
| ENROLLING
| ENROLLMENT_COMPLETE
| CANCELLED
| OTHER_STATE (name : string).

(** Modelled from the spec: [SERVER_ERROR] of [ees_types], whose
    declaration is not part of the source; the members are those the source
    names. *)
Inductive SERVER_ERROR : Type :=
| QUERY_FAILED
| DB_UNREACHABLE
| DB_AUTH_FAIL.

(** Modelled from the spec: the "future start/end timestamp" of an
    experiment and of a scheduled job ([startOn], [endOn], [timeStamp]); the
    entities that declare these properties are not part of the source.  The
    values are JavaScript [Date] objects (line 147 names the type).  The
    source never changes such an object: it tests it for truthiness, compares
    two of them with [!==] and hands them on.  An object is given by the
    instant it holds ([getTime]) and by which of the objects holding that
    instant it is ([object]); two values of this type are the same object
    exactly when they agree on both, and two different objects may hold the
    same instant. *)
Record Date : Type := {
  getTime : Z;
  object : nat
}.

(** [a === b] for two [Date] objects: they are the same object, that is,
    the same one among the objects holding the same instant.  Holding the
    same instant is not enough. *)
Definition same_object (a b : Date) : bool :=
  Z.eqb (getTime a) (getTime b) && Nat.eqb (object a) (object b).

Definition SCHEDULE_TYPE_eqb (a b : SCHEDULE_TYPE) : bool :=
  match a, b with
  | START_EXPERIMENT, START_EXPERIMENT => true
  | END_EXPERIMENT, END_EXPERIMENT => true
  | _, _ => false
  end.

(** [a !== b] for two values that are a [Date] object or [undefined]. *)
Definition strict_neq (a b : option Date) : bool :=
  match a, b with
  | Some x, Some y => negb (same_object x y)
  | None, None => false
  | _, _ => true
  end.

(** Truthiness of a string-or-[undefined] value: the empty string and
    [undefined] are falsy. *)
Definition truthy_string (s : option string) : bool :=
  match s with
  | Some EmptyString => false
  | Some _ => true
  | None => false
  end.

(** Truthiness of an object-or-[undefined] value. *)
Definition truthy (A : Type) (o : option A) : bool :=
  match o with Some _ => true | None => false end.

Module ScheduledJob.
(** Modelled from the spec: the entity [ScheduledJob] of
    [../models/ScheduledJob], whose declaration is not part of the source,
    "a persisted record linking an experiment to a future start/end
    timestamp and an external execution handle".  The properties are those
    the source reads and writes.  The record is a row of the table and at the
    same time the object literal handed to [upsertScheduledJob]; everything
    but [id] and [type] may be [undefined]. *)
Record t : Type := Build {
  id : string;
  experimentId : option string;
  type : SCHEDULE_TYPE;
  timeStamp : option Date;
  executionArn : option string
}.
End ScheduledJob.

Module Experiment.
(** Modelled from the spec: the entity [Experiment] of
    [../models/Experiment], whose declaration is not part of the source,
    with the four properties that [updateExperimentSchedules] destructures
    on line 62. *)
Record t : Type := Build {
  id : string;
  state : EXPERIMENT_STATE;
  startOn : option Date;
  endOn : option Date
}.
End Experiment.

Module User.
(** Modelled from the spec: a user row; the source reads the [id] of
    [systemUserDoc] only and hands the rows on. *)
Record t : Type := Build { id : string }.
End User.

(** An [Error] object as the collaborators reject with. *)
Record JsError : Type := {
  name : string;
  message : string;
  code : option string
}.

(** [String(e)] for an [Error] object, as a template literal renders it. *)
Definition JsError_toString (e : JsError) : string :=
  match name e, message e with
  | EmptyString, m => m
  | n, EmptyString => n
  | n, m => n ++ ": " ++ m
  end.

(** What an [async] function of the source can reject with. *)
Inductive Thrown : Type :=
| Rejected (reason : JsError)
    (* a collaborator's promise rejected with [reason] *)
| TypeError (text : string)
    (* raised by the runtime, e.g. on a property read of [undefined] *)
| Error_json (type : SERVER_ERROR) (text : string)
    (* [Error(JSON.stringify({ type, message: text }))] *)
| Error_of (type : SERVER_ERROR).
    (* [new Error(type)] *)

(** The outcome of an [async] function of the source. *)
Inductive Result (A : Type) : Type :=
| Ok (value : A)
| Err (error : Thrown).
Arguments Err {A} error.

(** The outcome of a collaborator's promise. *)
Inductive Answer (A : Type) : Type :=
| Resolves (value : A)
| Rejects (reason : JsError).
Arguments Rejects {A} reason.

Module Env.
(** Modelled from the spec: [env] of [../../env], whose declaration is not
    part of the source, as far as the source reads it: [env.db.*],
    [env.hostUrl], [env.schedular.stepFunctionArn] and [env.app.dirs.*]. *)
Record db : Type := Build_db {
  db_type : string;
  host : string;
  port : Z;
  username : string;
  password : string;
  synchronize : bool;
  logging : string
}.
(** Modelled from the spec: the properties of [env] itself. *)
Record t : Type := Build {
  hostUrl : string;
  schedular_stepFunctionArn : string;
  env_db : db;
  app_dirs_entities : list string;
  app_dirs_migrations : list string
}.
End Env.

(** ** Calls to the collaborators *)

(** The object that [startExperimentSchedular] serialises with
    [JSON.stringify] into the [input] of the execution: the properties
    [timeStamp], [body] (an object with the single property [id]) and
    [url]. *)
Record StepFunctionInput : Type := {
  input_timeStamp : option Date;
  input_body_id : string;
  input_url : string
}.

(** The parameter object of [stepFunctionStartExecution]. *)
Record StartExecutionInput : Type := {
  stateMachineArn : string;
  input : StepFunctionInput
}.

(** What [stepFunctionStartExecution] resolves with; the source reads its
    property [executionArn]. *)
Record StartExecutionOutput : Type := {
  response_executionArn : string
}.

(** What [ExperimentService.updateState] resolves with.  Its shape is not
    visible in the source, which returns it untouched. *)
Definition UpdatedState : Type := nat.

(** The result of [startExperiment] and [endExperiment] ([Promise<any>]). *)
Inductive Returned : Type :=
| EmptyObject
| FromUpdateState (value : UpdatedState).

(** One call issued by the service, with its arguments. *)
Inductive Call : Type :=
| ScheduledJobRepository_findOne (id : string)
| ScheduledJobRepository_find (experimentId : string)
| ScheduledJobRepository_upsertScheduledJob (doc : ScheduledJob.t)
| ScheduledJobRepository_delete (id : string)
| ExperimentRepository_findOne (id : option string)
| UserRepository_findOne (id : string)
| AWSService_stepFunctionStartExecution (params : StartExecutionInput)
| AWSService_stepFunctionStopExecution (executionArn : option string)
| ExperimentService_updateState
    (experimentId : option string) (state : EXPERIMENT_STATE)
    (user : option User.t)
| Log_error (text : string) (error : Thrown).
    (* [log.error(text, error.message)] *)

(** The collaborators injected into the service.  Each answer may depend
    on every call issued so far (the first argument). *)
Record Collaborators : Type := {
  scheduledJobRepository_findOne :
    list Call -> string -> Answer (option ScheduledJob.t);
  scheduledJobRepository_find :
    list Call -> string -> Answer (list ScheduledJob.t);
  scheduledJobRepository_upsertScheduledJob :
    list Call -> ScheduledJob.t -> Answer unit;
  scheduledJobRepository_delete :
    list Call -> string -> Answer unit;
  experimentRepository_findOne :
    list Call -> option string -> Answer (option Experiment.t);
  userRepository_findOne :
    list Call -> string -> Answer (option User.t);
  awsService_stepFunctionStartExecution :
    list Call -> StartExecutionInput -> Answer StartExecutionOutput;
  awsService_stepFunctionStopExecution :
    list Call -> option string -> Answer unit;
  experimentService_updateState :
    list Call -> option string -> EXPERIMENT_STATE -> option User.t ->
    Answer UpdatedState
}.

(** ** The monad of [async] functions

    A computation reads the calls issued before it started and yields its
    outcome together with the calls it issued itself, oldest first. *)
Definition M (A : Type) : Type := list Call -> Result A * list Call.

Definition ret (A : Type) (a : A) : M A := fun _ => (Ok a, []).

Definition throw (A : Type) (e : Thrown) : M A := fun _ => (Err e, []).
Arguments throw {A} e.

Definition bind (A B : Type) (m : M A) (k : A -> M B) : M B :=
  fun history =>
    match m history with
    | (Ok a, issued) =>
        let (r, issued') := k a (history ++ issued)%list in
        (r, (issued ++ issued')%list)
    | (Err e, issued) => (Err e, issued)
    end.

(** [await] of a collaborator's promise: the call is recorded and its
    answer is the collaborator's. *)
Definition await (A : Type) (c : Call) (answer : list Call -> Answer A) : M A :=
  fun history =>
    match answer history with
    | Resolves a => (Ok a, [c])
    | Rejects reason => (Err (Rejected reason), [c])
    end.

(** [await promise.catch(reason => { throw onRejected(reason) })]. *)
Definition await_catch (A : Type) (c : Call) (answer : list Call -> Answer A)
    (onRejected : JsError -> Thrown) : M A :=
  fun history =>
    match answer history with
    | Resolves a => (Ok a, [c])
    | Rejects reason => (Err (onRejected reason), [c])
    end.

(** [this.log.error(text, error.message)]; the logger does not throw. *)
Definition log_error (text : string) (error : Thrown) : M unit :=
  fun _ => (Ok tt, [Log_error text error]).

(** [try { body } catch (error) { handler }]. *)
Definition try_catch (A : Type) (body : M A) (handler : Thrown -> M A) : M A :=
  fun history =>
    match body history with
    | (Ok a, issued) => (Ok a, issued)
    | (Err e, issued) =>
        let (r, issued') := handler e (history ++ issued)%list in
        (r, (issued ++ issued')%list)
    end.

Declare Scope async_scope.
Delimit Scope async_scope with async.
Notation "x <- m ;; k" := (bind m (fun x => k))
  (at level 100, m at next level, right associativity) : async_scope.
Notation "m ;;; k" := (bind m (fun _ => k))
  (at level 100, right associativity) : async_scope.
Local Open Scope async_scope.

(** ** [ScheduledJobService] *)

Definition EXPERIMENT_STATE_eqb (a b : EXPERIMENT_STATE) : bool :=
  match a, b with
  | SCHEDULED, SCHEDULED => true
  | ENROLLING, ENROLLING => true
  | ENROLLMENT_COMPLETE, ENROLLMENT_COMPLETE => true
  | CANCELLED, CANCELLED => true
  | OTHER_STATE x, OTHER_STATE y => String.eqb x y
  | _, _ => false
  end.

(** [scheduledJobs.find(({ type }) => type === wanted)]: the first row of
    the wanted type, if any. *)
Definition find_type (wanted : SCHEDULE_TYPE) (scheduledJobs : list ScheduledJob.t)
  : option ScheduledJob.t :=
  List.find (fun job => SCHEDULE_TYPE_eqb (ScheduledJob.type job) wanted) scheduledJobs.

Section ScheduledJobService.

(** The constants the class reads from modules that are not part of the
    source: [env], [systemUserDoc], and the string value of each member of
    [SCHEDULE_TYPE]. *)
Variable env : Env.t.
Variable systemUserDoc : User.t.
Variable SCHEDULE_TYPE_value : SCHEDULE_TYPE -> string.

(** The injected repositories and services. *)
Variable this : Collaborators.

(** Lines 25-36. *)
Definition startExperiment (id : string) : M Returned :=
  scheduledJob <- await (ScheduledJobRepository_findOne id)
                    (fun h => scheduledJobRepository_findOne this h id) ;;
  match scheduledJob with
  | Some job =>
      if truthy_string (ScheduledJob.experimentId job) then
        experiment <- await (ExperimentRepository_findOne (ScheduledJob.experimentId job))
                        (fun h => experimentRepository_findOne this h
                                    (ScheduledJob.experimentId job)) ;;
        if truthy experiment then
          systemUser <- await (UserRepository_findOne (User.id systemUserDoc))
                          (fun h => userRepository_findOne this h (User.id systemUserDoc)) ;;
          updated <- await (ExperimentService_updateState
                              (ScheduledJob.experimentId job) ENROLLING systemUser)
                       (fun h => experimentService_updateState this h
                                   (ScheduledJob.experimentId job) ENROLLING systemUser) ;;
          ret (FromUpdateState updated)
        else ret EmptyObject
      else ret EmptyObject
  | None => ret EmptyObject
  end.

(** Lines 38-48.  Line 40 reads [scheduledJob.experimentId] before
    [scheduledJob] is tested. *)
Definition endExperiment (id : string) : M Returned :=
  scheduledJob <- await (ScheduledJobRepository_findOne id)
                    (fun h => scheduledJobRepository_findOne this h id) ;;
  experimentId <- match scheduledJob with
                  | Some job => ret (ScheduledJob.experimentId job)
                  | None => throw (TypeError "Cannot read property 'experimentId' of undefined")
                  end ;;
  experiment <- await (ExperimentRepository_findOne experimentId)
                  (fun h => experimentRepository_findOne this h experimentId) ;;
  if truthy scheduledJob && truthy experiment then
    systemUser <- await (UserRepository_findOne (User.id systemUserDoc))
                    (fun h => userRepository_findOne this h (User.id systemUserDoc)) ;;
    updated <- await (ExperimentService_updateState
                        experimentId ENROLLMENT_COMPLETE systemUser)
                 (fun h => experimentService_updateState this h
                             experimentId ENROLLMENT_COMPLETE systemUser) ;;
    ret (FromUpdateState updated)
  else ret EmptyObject.

(** Lines 147-170.  The [throw] of line 168 comes before the [return] of
    line 169. *)
Definition startExperimentSchedular
    (timeStamp : option Date) (body_id : string) (type : SCHEDULE_TYPE)
  : M StartExecutionOutput :=
  let url :=
    match type with
    | START_EXPERIMENT => Env.hostUrl env ++ "/scheduledJobs/start"
    | END_EXPERIMENT => Env.hostUrl env ++ "/scheduledJobs/end"
    end in
  let experimentSchedularStateMachine :=
    {| stateMachineArn := Env.schedular_stepFunctionArn env;
       input := {| input_timeStamp := timeStamp;
                   input_body_id := body_id;
                   input_url := url |} |} in
  returnData <- await_catch
                  (AWSService_stepFunctionStartExecution experimentSchedularStateMachine)
                  (fun h => awsService_stepFunctionStartExecution this h
                              experimentSchedularStateMachine)
                  (fun reason =>
                     Error_json QUERY_FAILED
                       (" Error in calling step function " ++ JsError_toString reason)) ;;
  (throw (A := unit)
     (Error_json QUERY_FAILED " Logs of step function [object Object]") ;;;
   ret returnData).

(** Lines 172-174. *)
Definition stopExperimentSchedular (executionArn : option string) : M unit :=
  await (AWSService_stepFunctionStopExecution executionArn)
    (fun h => awsService_stepFunctionStopExecution this h executionArn).

(** Lines 72-104 of [updateExperimentSchedules]: the start schedule. *)
Definition updateStartSchedule
    (experiment : Experiment.t) (startExperimentDoc : option ScheduledJob.t) : M unit :=
  let startOn := Experiment.startOn experiment in
  let experimentStartCondition :=
    EXPERIMENT_STATE_eqb (Experiment.state experiment) SCHEDULED in
  if experimentStartCondition then
    if match startExperimentDoc with
       | None => true
       | Some doc => truthy startOn && strict_neq (ScheduledJob.timeStamp doc) startOn
       end
    then
      let startDoc :=
        match startExperimentDoc with
        | Some doc => doc
        | None =>
            {| ScheduledJob.id :=
                 Experiment.id experiment ++ "_" ++ SCHEDULE_TYPE_value START_EXPERIMENT;
               ScheduledJob.experimentId := Some (Experiment.id experiment);
               ScheduledJob.type := START_EXPERIMENT;
               ScheduledJob.timeStamp := startOn;
               ScheduledJob.executionArn := None |}
        end in
      response <- startExperimentSchedular startOn (ScheduledJob.id startDoc)
                    START_EXPERIMENT ;;
      (match startExperimentDoc with
       | Some doc =>
           if truthy_string (ScheduledJob.executionArn doc)
           then stopExperimentSchedular (ScheduledJob.executionArn doc)
           else ret tt
       | None => ret tt
       end ;;;
       await (ScheduledJobRepository_upsertScheduledJob
                {| ScheduledJob.id := ScheduledJob.id startDoc;
                   ScheduledJob.experimentId := ScheduledJob.experimentId startDoc;
                   ScheduledJob.type := ScheduledJob.type startDoc;
                   ScheduledJob.timeStamp := startOn;
                   ScheduledJob.executionArn := Some (response_executionArn response) |})
         (fun h => scheduledJobRepository_upsertScheduledJob this h
                {| ScheduledJob.id := ScheduledJob.id startDoc;
                   ScheduledJob.experimentId := ScheduledJob.experimentId startDoc;
                   ScheduledJob.type := ScheduledJob.type startDoc;
                   ScheduledJob.timeStamp := startOn;
                   ScheduledJob.executionArn := Some (response_executionArn response) |}))
    else ret tt
  else
    match startExperimentDoc with
    | Some doc =>
        await (ScheduledJobRepository_delete (ScheduledJob.id doc))
          (fun h => scheduledJobRepository_delete this h (ScheduledJob.id doc)) ;;;
        stopExperimentSchedular (ScheduledJob.executionArn doc)
    | None => ret tt
    end.

(** Lines 106-141 of [updateExperimentSchedules]: the end schedule. *)
Definition updateEndSchedule
    (experiment : Experiment.t) (endExperimentDoc : option ScheduledJob.t) : M unit :=
  let state := Experiment.state experiment in
  let endOn := Experiment.endOn experiment in
  let experimentEndCondition :=
    negb (EXPERIMENT_STATE_eqb state ENROLLMENT_COMPLETE
          || EXPERIMENT_STATE_eqb state CANCELLED)
    && truthy endOn in
  if experimentEndCondition then
    if match endExperimentDoc with
       | None => true
       | Some doc => truthy endOn && strict_neq (ScheduledJob.timeStamp doc) endOn
       end
    then
      let endDoc :=
        match endExperimentDoc with
        | Some doc => doc
        | None =>
            {| ScheduledJob.id :=
                 Experiment.id experiment ++ "_" ++ SCHEDULE_TYPE_value END_EXPERIMENT;
               ScheduledJob.experimentId := Some (Experiment.id experiment);
               ScheduledJob.type := END_EXPERIMENT;
               ScheduledJob.timeStamp := endOn;
               ScheduledJob.executionArn := None |}
        end in
      response <- startExperimentSchedular endOn (ScheduledJob.id endDoc)
                    END_EXPERIMENT ;;
      (match endExperimentDoc with
       | Some doc =>
           if truthy_string (ScheduledJob.executionArn doc)
           then stopExperimentSchedular (ScheduledJob.executionArn doc)
           else ret tt
       | None => ret tt
       end ;;;
       await (ScheduledJobRepository_upsertScheduledJob
                {| ScheduledJob.id := ScheduledJob.id endDoc;
                   ScheduledJob.experimentId := ScheduledJob.experimentId endDoc;
                   ScheduledJob.type := ScheduledJob.type endDoc;
                   ScheduledJob.timeStamp := endOn;
                   ScheduledJob.executionArn := Some (response_executionArn response) |})
         (fun h => scheduledJobRepository_upsertScheduledJob this h
                {| ScheduledJob.id := ScheduledJob.id endDoc;
                   ScheduledJob.experimentId := ScheduledJob.experimentId endDoc;
                   ScheduledJob.type := ScheduledJob.type endDoc;
                   ScheduledJob.timeStamp := endOn;
                   ScheduledJob.executionArn := Some (response_executionArn response) |}))
    else ret tt
  else
    match endExperimentDoc with
    | Some doc =>
        await (ScheduledJobRepository_delete (ScheduledJob.id doc))
          (fun h => scheduledJobRepository_delete this h (ScheduledJob.id doc)) ;;;
        stopExperimentSchedular (ScheduledJob.executionArn doc)
    | None => ret tt
    end.

(** Lines 62-141: the body of the [try] block. *)
Definition updateExperimentSchedules_try (experiment : Experiment.t) : M unit :=
  scheduledJobs <- await (ScheduledJobRepository_find (Experiment.id experiment))
                     (fun h => scheduledJobRepository_find this h (Experiment.id experiment)) ;;
  (updateStartSchedule experiment (find_type START_EXPERIMENT scheduledJobs) ;;;
   updateEndSchedule experiment (find_type END_EXPERIMENT scheduledJobs)).

(** Lines 60-145. *)
Definition updateExperimentSchedules (experiment : Experiment.t) : M unit :=
  try_catch (updateExperimentSchedules_try experiment)
    (fun error => log_error "Error in experiment schedular " error).

End ScheduledJobService.

(** ** In-memory collaborators

    A concrete set of collaborators over fixed tables: the repositories
    answer from the tables, the step-function client hands out a fixed
    handle and nothing ever rejects.  The properties below hold for every
    set of collaborators; this one serves to instantiate them. *)
Module InMemory.

Definition job_by_id (jobs : list ScheduledJob.t) (id : string) : option ScheduledJob.t :=
  List.find (fun job => String.eqb (ScheduledJob.id job) id) jobs.

Definition jobs_of_experiment (jobs : list ScheduledJob.t) (experimentId : string)
  : list ScheduledJob.t :=
  List.filter
    (fun job =>
       match ScheduledJob.experimentId job with
       | Some e => String.eqb e experimentId
       | None => false
       end) jobs.

Definition experiment_by_id (experiments : list Experiment.t) (id : option string)
  : option Experiment.t :=
  match id with
  | Some i => List.find (fun e => String.eqb (Experiment.id e) i) experiments
  | None => None
  end.

Definition user_by_id (users : list User.t) (id : string) : option User.t :=
  List.find (fun u => String.eqb (User.id u) id) users.

Definition collaborators
    (jobs : list ScheduledJob.t) (experiments : list Experiment.t)
    (users : list User.t) (handle : string) : Collaborators :=
  {| scheduledJobRepository_findOne := fun _ id => Resolves (job_by_id jobs id);
     scheduledJobRepository_find := fun _ e => Resolves (jobs_of_experiment jobs e);
     scheduledJobRepository_upsertScheduledJob := fun _ _ => Resolves tt;
     scheduledJobRepository_delete := fun _ _ => Resolves tt;
     experimentRepository_findOne := fun _ id => Resolves (experiment_by_id experiments id);
     userRepository_findOne := fun _ id => Resolves (user_by_id users id);
     awsService_stepFunctionStartExecution :=
       fun _ _ => Resolves {| response_executionArn := handle |};
     awsService_stepFunctionStopExecution := fun _ _ => Resolves tt;
     experimentService_updateState := fun history _ _ _ => Resolves (List.length history) |}.

Definition env : Env.t :=
  {| Env.hostUrl := "http://host";
     Env.schedular_stepFunctionArn := "arn:machine";
     Env.env_db := {| Env.db_type := "postgres"; Env.host := "db"; Env.port := 5432;
                      Env.username := "u"; Env.password := "p";
                      Env.synchronize := false; Env.logging := "error" |};
     Env.app_dirs_entities := ["models"];
     Env.app_dirs_migrations := ["migrations"] |}.

Definition systemUserDoc : User.t := {| User.id := "system" |}.

Definition SCHEDULE_TYPE_value (type : SCHEDULE_TYPE) : string :=
  match type with
  | START_EXPERIMENT => "START_EXPERIMENT"
  | END_EXPERIMENT => "END_EXPERIMENT"
  end.

(** The [Date] object of the experiment handed to the service that holds
    the given instant. *)
Definition given (instant : Z) : Date := {| getTime := instant; object := 0 |}.

(** The [Date] object of a row read from the table that holds the given
    instant: another object than the one of the experiment. *)
Definition stored (instant : Z) : Date := {| getTime := instant; object := 1 |}.

Definition startJob : ScheduledJob.t :=
  {| ScheduledJob.id := "e1_START_EXPERIMENT";
     ScheduledJob.experimentId := Some "e1";
     ScheduledJob.type := START_EXPERIMENT;
     ScheduledJob.timeStamp := Some (stored 1000);
     ScheduledJob.executionArn := Some "arn:old-start" |}.

Definition endJob : ScheduledJob.t :=
  {| ScheduledJob.id := "e1_END_EXPERIMENT";
     ScheduledJob.experimentId := Some "e1";
     ScheduledJob.type := END_EXPERIMENT;
     ScheduledJob.timeStamp := Some (stored 2000);
     ScheduledJob.executionArn := Some "arn:old-end" |}.

(** Experiment [e1] in the given state, with the given instants, if any,
    as its dates. *)
Definition experiment (state : EXPERIMENT_STATE) (startOn endOn : option Z)
  : Experiment.t :=
  {| Experiment.id := "e1"; Experiment.state := state;
     Experiment.startOn := option_map given startOn;
     Experiment.endOn := option_map given endOn |}.

(** Collaborators whose every promise rejects with the same error. *)
Definition unreachable (reason : JsError) : Collaborators :=
  {| scheduledJobRepository_findOne := fun _ _ => Rejects reason;
     scheduledJobRepository_find := fun _ _ => Rejects reason;
     scheduledJobRepository_upsertScheduledJob := fun _ _ => Rejects reason;
     scheduledJobRepository_delete := fun _ _ => Rejects reason;
     experimentRepository_findOne := fun _ _ => Rejects reason;
     userRepository_findOne := fun _ _ => Rejects reason;
     awsService_stepFunctionStartExecution := fun _ _ => Rejects reason;
     awsService_stepFunctionStopExecution := fun _ _ => Rejects reason;
     experimentService_updateState := fun _ _ _ _ => Rejects reason |}.

Definition timed_out : JsError :=
  {| name := "Error"; message := "connect ETIMEDOUT"; code := Some "ETIMEDOUT" |}.

End InMemory.

(** ** [typeormLoader] *)
Module TypeormLoader.

(** A [typeorm] connection, up to identity. *)
Definition Connection : Type := nat.

(** A callback registered with [onShutdown].  The loader registers only
    [() => connection.close()]. *)
Inductive ShutdownHandler : Type :=
| Connection_close (connection : Connection).

(** [MicroframeworkSettings] of the [microframework] package: the data
    stored with [setData] and the handlers registered with [onShutdown],
    oldest first. *)
Record MicroframeworkSettings : Type := {
  data : list (string * Connection);
  shutdownHandlers : list ShutdownHandler
}.

Definition setData (key : string) (value : Connection) (settings : MicroframeworkSettings)
  : MicroframeworkSettings :=
  {| data := (key, value)
             :: List.filter (fun kv => negb (String.eqb (fst kv) key)) (data settings);
     shutdownHandlers := shutdownHandlers settings |}.

Definition getData (key : string) (settings : MicroframeworkSettings) : option Connection :=
  match List.find (fun kv => String.eqb (fst kv) key) (data settings) with
  | Some kv => Some (snd kv)
  | None => None
  end.

Definition onShutdown (handler : ShutdownHandler) (settings : MicroframeworkSettings)
  : MicroframeworkSettings :=
  {| data := data settings;
     shutdownHandlers := (shutdownHandlers settings ++ [handler])%list |}.

(** The connection options: the nine properties the loader sets and
    whatever else [getConnectionOptions] loaded. *)
Record ConnectionOptions : Type := {
  type : option string;
  host : option string;
  port : option Z;
  username : option string;
  password : option string;
  synchronize : option bool;
  logging : option string;
  entities : option (list string);
  migrations : option (list string);
  others : list (string * string)
}.

(** Lines 10-20: [Object.assign(loadedConnectionOptions, { ... })]. *)
Definition assign (loadedConnectionOptions : ConnectionOptions) (env : Env.t)
  : ConnectionOptions :=
  {| type := Some (Env.db_type (Env.env_db env));
     host := Some (Env.host (Env.env_db env));
     port := Some (Env.port (Env.env_db env));
     username := Some (Env.username (Env.env_db env));
     password := Some (Env.password (Env.env_db env));
     synchronize := Some (Env.synchronize (Env.env_db env));
     logging := Some (Env.logging (Env.env_db env));
     entities := Some (Env.app_dirs_entities env);
     migrations := Some (Env.app_dirs_migrations env);
     others := others loadedConnectionOptions |}.

(** [error.code === 'ECONNREFUSED']. *)
Definition is_ECONNREFUSED (error : JsError) : bool :=
  match code error with
  | Some c => String.eqb c "ECONNREFUSED"
  | None => false
  end.

(** What a run of the loader leaves behind: how its promise settles, the
    settings object afterwards and what was written with [console.log]. *)
Record Outcome : Type := {
  settled : Result unit;
  settings_after : option MicroframeworkSettings;
  console : list JsError
}.

(** Lines 7-37.  [getConnectionOptions] and [createConnection] are
    [typeorm]'s; the first is awaited outside the [try] block. *)
Definition typeormLoader
    (env : Env.t)
    (getConnectionOptions : Answer ConnectionOptions)
    (createConnection : ConnectionOptions -> Answer Connection)
    (settings : option MicroframeworkSettings) : Outcome :=
  match getConnectionOptions with
  | Rejects reason =>
      {| settled := Err (Rejected reason); settings_after := settings; console := [] |}
  | Resolves loadedConnectionOptions =>
      let connectionOptions := assign loadedConnectionOptions env in
      match createConnection connectionOptions with
      | Resolves connection =>
          {| settled := Ok tt;
             settings_after :=
               match settings with
               | Some s =>
                   Some (onShutdown (Connection_close connection)
                           (setData "connection" connection s))
               | None => None
               end;
             console := [] |}
      | Rejects error =>
          {| settled :=
               if is_ECONNREFUSED error
               then Err (Error_of DB_UNREACHABLE)
               else Err (Error_of DB_AUTH_FAIL);
             settings_after := settings;
             console := [error] |}
      end
  end.

End TypeormLoader.

(** Inputs of [typeormLoader] to instantiate its properties with. *)
Module LoaderInputs.

Definition loaded : TypeormLoader.ConnectionOptions :=
  {| TypeormLoader.type := None; TypeormLoader.host := Some "localhost";
     TypeormLoader.port := None; TypeormLoader.username := None;
     TypeormLoader.password := None; TypeormLoader.synchronize := None;
     TypeormLoader.logging := None; TypeormLoader.entities := None;
     TypeormLoader.migrations := None;
     TypeormLoader.others := [("name", "default")] |}.

Definition refused : JsError :=
  {| name := "Error"; message := "connect ECONNREFUSED 127.0.0.1:5432";
     code := Some "ECONNREFUSED" |}.

Definition bad_password : JsError :=
  {| name := "error"; message := "password authentication failed"; code := Some "28P01" |}.


Definition settings : TypeormLoader.MicroframeworkSettings :=
  {| TypeormLoader.data := [("connection", 3%nat); ("express_app", 4%nat)];
     TypeormLoader.shutdownHandlers := [TypeormLoader.Connection_close 3%nat] |}.

End LoaderInputs.

(** ** Vocabulary of the properties *)

(** The three look-ups that precede the delegation to
    [ExperimentService.updateState]. *)
Definition lookups (systemUserDoc : User.t) (id experimentId : string) : list Call :=
  [ScheduledJobRepository_findOne id;
   ExperimentRepository_findOne (Some experimentId);
   UserRepository_findOne (User.id systemUserDoc)].

(** How [ExperimentService.updateState]'s promise becomes the result of the
    delegating function. *)
Definition delegated (answer : Answer UpdatedState) : Result Returned :=
  match answer with
  | Resolves updated => Ok (FromUpdateState updated)
  | Rejects reason => Err (Rejected reason)
  end.

(** The callback URL of a schedule type. *)
Definition callback_url (env : Env.t) (type : SCHEDULE_TYPE) : string :=
  Env.hostUrl env ++
  match type with
  | START_EXPERIMENT => "/scheduledJobs/start"
  | END_EXPERIMENT => "/scheduledJobs/end"
  end.

(** Is the call a write of a scheduled-job row? *)
Definition is_upsert (c : Call) : bool :=
  match c with
  | ScheduledJobRepository_upsertScheduledJob _ => true
  | _ => false
  end.

(** Does the call start a step-function execution with the given callback
    URL? *)
Definition starts_execution_with (url : string) (c : Call) : bool :=
  match c with
  | AWSService_stepFunctionStartExecution params =>
      String.eqb (input_url (input params)) url
  | _ => false
  end.

(** [updateExperimentSchedules] with lines 72-104 (the start schedule)
    taken out. *)
Definition updateExperimentSchedules_end_only
    (env : Env.t) (SCHEDULE_TYPE_value : SCHEDULE_TYPE -> string)
    (this : Collaborators) (experiment : Experiment.t) : M unit :=
  try_catch
    (scheduledJobs <- await (ScheduledJobRepository_find (Experiment.id experiment))
                        (fun h => scheduledJobRepository_find this h
                                    (Experiment.id experiment)) ;;
     updateEndSchedule env SCHEDULE_TYPE_value this experiment
       (find_type END_EXPERIMENT scheduledJobs))
    (fun error => log_error "Error in experiment schedular " error).

(** [updateExperimentSchedules] with lines 106-141 (the end schedule)
    taken out. *)
Definition updateExperimentSchedules_start_only
    (env : Env.t) (SCHEDULE_TYPE_value : SCHEDULE_TYPE -> string)
    (this : Collaborators) (experiment : Experiment.t) : M unit :=
  try_catch
    (scheduledJobs <- await (ScheduledJobRepository_find (Experiment.id experiment))
                        (fun h => scheduledJobRepository_find this h
                                    (Experiment.id experiment)) ;;
     updateStartSchedule env SCHEDULE_TYPE_value this experiment
       (find_type START_EXPERIMENT scheduledJobs))
    (fun error => log_error "Error in experiment schedular " error).

(** The parameter object built on lines 152-159. *)
Definition execution_request (env : Env.t)
    (timeStamp : option Date) (body_id : string) (type : SCHEDULE_TYPE)
  : StartExecutionInput :=
  {| stateMachineArn := Env.schedular_stepFunctionArn env;
     input := {| input_timeStamp := timeStamp;
                 input_body_id := body_id;
                 input_url := callback_url env type |} |}.

(** The error [startExperimentSchedular] ends with, whatever the
    step-function client answers (lines 163-168). *)
Definition schedular_error (answer : Answer StartExecutionOutput) : Thrown :=
  match answer with
  | Resolves _ => Error_json QUERY_FAILED " Logs of step function [object Object]"
  | Rejects reason =>
      Error_json QUERY_FAILED (" Error in calling step function " ++ JsError_toString reason)
  end.

(** A computation that issues no call satisfying [p], whatever was issued
    before it. *)
Definition never (A : Type) (p : Call -> bool) (m : M A) : Prop :=
  forall history, existsb p (snd (m history)) = false.

(** The error that line 168 throws once the step-function client has
    answered, as [updateExperimentSchedules] logs it. *)
Definition logged : Call :=
  Log_error "Error in experiment schedular "
    (Error_json QUERY_FAILED " Logs of step function [object Object]").

(** ** Further vocabulary *)

Definition is_delete (c : Call) : bool :=
  match c with
  | ScheduledJobRepository_delete _ => true
  | _ => false
  end.

Definition is_stop (c : Call) : bool :=
  match c with
  | AWSService_stepFunctionStopExecution _ => true
  | _ => false
  end.

Definition is_start_execution (c : Call) : bool :=
  match c with
  | AWSService_stepFunctionStartExecution _ => true
  | _ => false
  end.

(** Does the call change anything outside the service: a row of the
    scheduled-job table or an execution of the step function? *)
Definition changes_schedules (c : Call) : bool :=
  is_upsert c || is_delete c || is_start_execution c || is_stop c.

(** [value] is falsy as a string-or-[undefined] value. *)
Definition falsy_string (value : option string) : Prop :=
  value = None \/ value = Some "".

(** The end condition of line 64-65 fails. *)
Definition end_condition_fails (experiment : Experiment.t) : Prop :=
  Experiment.state experiment = ENROLLMENT_COMPLETE
  \/ Experiment.state experiment = CANCELLED
  \/ Experiment.endOn experiment = None.

(** A schedule is due for a job of the wanted type: there is no such job,
    or the date is set and differs from the time stamp of the job
    (lines 74 and 112). *)
Definition schedule_due (on : option Date) (doc : option ScheduledJob.t) : Prop :=
  match doc with
  | None => True
  | Some d => on <> None /\ ScheduledJob.timeStamp d <> on
  end.

(** The [id] that [startExperimentSchedular] receives in its body
    (lines 75-80 and 84, 113-118 and 122). *)
Definition schedule_body_id
    (SCHEDULE_TYPE_value : SCHEDULE_TYPE -> string)
    (experiment : Experiment.t) (type : SCHEDULE_TYPE) (doc : option ScheduledJob.t)
  : string :=
  match doc with
  | Some d => ScheduledJob.id d
  | None => Experiment.id experiment ++ "_" ++ SCHEDULE_TYPE_value type
  end.

(** Further collaborators to instantiate the properties with. *)
Module Faults.

(** The in-memory collaborators, except that the deletion of a row
    rejects. *)
Definition delete_rejects (jobs : list ScheduledJob.t) (reason : JsError)
  : Collaborators :=
  let c := InMemory.collaborators jobs [] [] "arn:new" in
  {| scheduledJobRepository_findOne := scheduledJobRepository_findOne c;
     scheduledJobRepository_find := scheduledJobRepository_find c;
     scheduledJobRepository_upsertScheduledJob :=
       scheduledJobRepository_upsertScheduledJob c;
     scheduledJobRepository_delete := fun _ _ => Rejects reason;
     experimentRepository_findOne := experimentRepository_findOne c;
     userRepository_findOne := userRepository_findOne c;
     awsService_stepFunctionStartExecution := awsService_stepFunctionStartExecution c;
     awsService_stepFunctionStopExecution := awsService_stepFunctionStopExecution c;
     experimentService_updateState := experimentService_updateState c |}.

(** The in-memory collaborators, except that the experiment repository
    answers every look-up, also one by [undefined], with the same row. *)
Definition any_experiment (jobs : list ScheduledJob.t) (row : Experiment.t)
  : Collaborators :=
  let c := InMemory.collaborators jobs [row] [InMemory.systemUserDoc] "arn:new" in
  {| scheduledJobRepository_findOne := scheduledJobRepository_findOne c;
     scheduledJobRepository_find := scheduledJobRepository_find c;
     scheduledJobRepository_upsertScheduledJob :=
       scheduledJobRepository_upsertScheduledJob c;
     scheduledJobRepository_delete := scheduledJobRepository_delete c;
     experimentRepository_findOne := fun _ _ => Resolves (Some row);
     userRepository_findOne := userRepository_findOne c;
     awsService_stepFunctionStartExecution := awsService_stepFunctionStartExecution c;
     awsService_stepFunctionStopExecution := awsService_stepFunctionStopExecution c;
     experimentService_updateState := experimentService_updateState c |}.

(** A job whose [experimentId] is [undefined]. *)
Definition looseJob : ScheduledJob.t :=
  {| ScheduledJob.id := "loose";
     ScheduledJob.experimentId := None;
     ScheduledJob.type := END_EXPERIMENT;
     ScheduledJob.timeStamp := Some (InMemory.stored 2000);
     ScheduledJob.executionArn := None |}.

(** A job of an experiment that is gone. *)
Definition orphanJob : ScheduledJob.t :=
  {| ScheduledJob.id := "e9_START_EXPERIMENT";
     ScheduledJob.experimentId := Some "e9";
     ScheduledJob.type := START_EXPERIMENT;
     ScheduledJob.timeStamp := Some (InMemory.stored 1000);
     ScheduledJob.executionArn := Some "arn:e9" |}.

End Faults.

(** * Properties *)

(** ** Elementary facts about the values *)

Lemma truthy_string_nonempty (s : string) :
  s <> "" -> truthy_string (Some s) = true.
Proof.
  destruct s as [|a s']; [intros H; now elim H | reflexivity].
Qed.

Lemma EXPERIMENT_STATE_eqb_eq (a b : EXPERIMENT_STATE) :
  EXPERIMENT_STATE_eqb a b = true <-> a = b.
Proof.
  destruct a, b; simpl; split; intros H;
    try reflexivity; try discriminate.
  - apply String.eqb_eq in H. now subst.
  - inversion H. apply String.eqb_refl.
Qed.

Lemma EXPERIMENT_STATE_eqb_neq (a b : EXPERIMENT_STATE) :
  a <> b -> EXPERIMENT_STATE_eqb a b = false.
Proof.
  intros H. destruct (EXPERIMENT_STATE_eqb a b) eqn:E; [|reflexivity].
  apply EXPERIMENT_STATE_eqb_eq in E. contradiction.
Qed.

Lemma same_object_eq (a b : Date) : same_object a b = true <-> a = b.
Proof.
  unfold same_object. rewrite andb_true_iff, Z.eqb_eq, Nat.eqb_eq.
  destruct a as [ta oa], b as [tb ob]; simpl. split.
  - now intros [-> ->].
  - now intros [= -> ->].
Qed.

Lemma strict_neq_same (a : option Date) : strict_neq a a = false.
Proof.
  destruct a as [x|]; simpl; [|reflexivity].
  now rewrite (proj2 (same_object_eq x x) eq_refl).
Qed.

Lemma strict_neq_differ (a b : option Date) : a <> b -> strict_neq a b = true.
Proof.
  intros Hne. destruct a as [x|], b as [y|]; simpl; try reflexivity.
  - destruct (same_object x y) eqn:E; [|reflexivity].
    apply same_object_eq in E. subst. now elim Hne.
  - now elim Hne.
Qed.

(** ** Running [await] and [bind] *)

Lemma await_resolves (A : Type) (c : Call) (answer : list Call -> Answer A)
    (history : list Call) (a : A) :
  answer history = Resolves a -> await c answer history = (Ok a, [c]).
Proof. unfold await. now intros ->. Qed.

Lemma await_rejects (A : Type) (c : Call) (answer : list Call -> Answer A)
    (history : list Call) (reason : JsError) :
  answer history = Rejects reason ->
  await c answer history = (Err (Rejected reason), [c]).
Proof. unfold await. now intros ->. Qed.

Lemma bind_ok (A B : Type) (m : M A) (k : A -> M B) (history issued : list Call) (a : A) :
  m history = (Ok a, issued) ->
  bind m k history =
    (fst (k a (history ++ issued)%list),
     (issued ++ snd (k a (history ++ issued)%list))%list).
Proof.
  unfold bind. intros ->. now destruct (k a (history ++ issued)%list).
Qed.

Lemma bind_err (A B : Type) (m : M A) (k : A -> M B) (history issued : list Call)
    (e : Thrown) :
  m history = (Err e, issued) -> bind m k history = (Err e, issued).
Proof. unfold bind. now intros ->. Qed.

(** ** [startExperiment] and [endExperiment] *)

Section StartAndEnd.

Variable systemUserDoc : User.t.
Variable this : Collaborators.

(** C2.  Given the id of an existing scheduled job whose [experimentId] is
    a non-empty string and whose experiment exists, [startExperiment] issues
    three look-ups and then [ExperimentService.updateState] with the job's
    [experimentId], [ENROLLING] and the user found under [systemUserDoc.id];
    it issues no other call (in particular no write) and settles as
    [updateState] does.  Under the same precondition [endExperiment] does the
    same with [ENROLLMENT_COMPLETE]. *)
Theorem startExperiment_endExperiment_delegate
    (id experimentId : string) (history : list Call)
    (job : ScheduledJob.t) (experiment : Experiment.t) (systemUser : option User.t) :
  scheduledJobRepository_findOne this history id = Resolves (Some job) ->
  ScheduledJob.experimentId job = Some experimentId ->
  experimentId <> "" ->
  experimentRepository_findOne this
    (history ++ [ScheduledJobRepository_findOne id])%list (Some experimentId)
    = Resolves (Some experiment) ->
  userRepository_findOne this
    (history ++ [ScheduledJobRepository_findOne id;
                 ExperimentRepository_findOne (Some experimentId)])%list
    (User.id systemUserDoc) = Resolves systemUser ->
  startExperiment systemUserDoc this id history =
    (delegated (experimentService_updateState this
                  (history ++ lookups systemUserDoc id experimentId)%list
                  (Some experimentId) ENROLLING systemUser),
     (lookups systemUserDoc id experimentId ++
      [ExperimentService_updateState (Some experimentId) ENROLLING systemUser])%list)
  /\
  endExperiment systemUserDoc this id history =
    (delegated (experimentService_updateState this
                  (history ++ lookups systemUserDoc id experimentId)%list
                  (Some experimentId) ENROLLMENT_COMPLETE systemUser),
     (lookups systemUserDoc id experimentId ++
      [ExperimentService_updateState (Some experimentId) ENROLLMENT_COMPLETE
         systemUser])%list).
Proof.
  intros Hjob Hid Hne Hexp Huser. unfold lookups.
  pose proof (truthy_string_nonempty Hne) as Htruthy.
  split.
  - unfold startExperiment, bind, await.
    rewrite Hjob. rewrite Hid, Htruthy.
    rewrite Hexp. simpl.
    rewrite <- app_assoc. simpl. rewrite Huser.
    rewrite <- app_assoc. simpl.
    destruct (experimentService_updateState this _ _ _ _); reflexivity.
  - unfold endExperiment, bind, await.
    rewrite Hjob. simpl. rewrite Hid.
    rewrite app_nil_r. rewrite Hexp. simpl.
    rewrite <- app_assoc. simpl. rewrite Huser.
    rewrite <- app_assoc. simpl.
    destruct (experimentService_updateState this _ _ _ _); reflexivity.
Qed.

(** The first half of C8: when the look-up of the job finds no row,
    [startExperiment] returns [{}] and has issued that look-up only. *)
Lemma startExperiment_no_job (id : string) (history : list Call) :
  scheduledJobRepository_findOne this history id = Resolves None ->
  startExperiment systemUserDoc this id history =
    (Ok EmptyObject, [ScheduledJobRepository_findOne id]).
Proof.
  intros H. unfold startExperiment, bind, await. now rewrite H.
Qed.

(** What [endExperiment] does when the look-up of the job finds no row:
    line 40 reads a property of [undefined], and the promise rejects with
    the [TypeError] of the runtime. *)
Lemma endExperiment_no_job (id : string) (history : list Call) :
  scheduledJobRepository_findOne this history id = Resolves None ->
  endExperiment systemUserDoc this id history =
    (Err (TypeError "Cannot read property 'experimentId' of undefined"),
     [ScheduledJobRepository_findOne id]).
Proof.
  intros H. unfold endExperiment, bind, await. now rewrite H.
Qed.

End StartAndEnd.

(** ** [startExperimentSchedular] *)

Section Schedules.

Variable env : Env.t.
Variable SCHEDULE_TYPE_value : SCHEDULE_TYPE -> string.
Variable this : Collaborators.

(** [startExperimentSchedular] issues exactly one call and then throws:
    the [return] of line 169 is never reached. *)
Lemma startExperimentSchedular_run
    (timeStamp : option Date) (body_id : string) (type : SCHEDULE_TYPE)
    (history : list Call) :
  startExperimentSchedular env this timeStamp body_id type history =
    (Err (schedular_error
            (awsService_stepFunctionStartExecution this history
               (execution_request env timeStamp body_id type))),
     [AWSService_stepFunctionStartExecution (execution_request env timeStamp body_id type)]).
Proof.
  unfold startExperimentSchedular, execution_request, callback_url, bind, await_catch,
    schedular_error.
  destruct type;
    match goal with
    | |- context [awsService_stepFunctionStartExecution this history ?p] =>
        destruct (awsService_stepFunctionStartExecution this history p)
    end; reflexivity.
Qed.

(** C6.  Whatever the time stamp, the body and the schedule type,
    [startExperimentSchedular] starts exactly one execution: on the state
    machine [env.schedular.stepFunctionArn], with an input made of the time
    stamp, the body (its [id]) and a callback URL that is
    [env.hostUrl + '/scheduledJobs/start'] for [START_EXPERIMENT] and
    [env.hostUrl + '/scheduledJobs/end'] otherwise. *)
Theorem startExperimentSchedular_request
    (timeStamp : option Date) (body_id : string) (type : SCHEDULE_TYPE)
    (history : list Call) :
  snd (startExperimentSchedular env this timeStamp body_id type history) =
    [AWSService_stepFunctionStartExecution
       {| stateMachineArn := Env.schedular_stepFunctionArn env;
          input := {| input_timeStamp := timeStamp;
                      input_body_id := body_id;
                      input_url :=
                        match type with
                        | START_EXPERIMENT => Env.hostUrl env ++ "/scheduledJobs/start"
                        | END_EXPERIMENT => Env.hostUrl env ++ "/scheduledJobs/end"
                        end |} |}].
Proof.
  rewrite startExperimentSchedular_run. simpl.
  unfold execution_request, callback_url. now destruct type.
Qed.

End Schedules.

(** ** Calls that a computation never issues *)

Section Never.

Variable p : Call -> bool.

Lemma never_ret (A : Type) (a : A) : never p (ret a).
Proof. intros h. reflexivity. Qed.

Lemma never_throw (A : Type) (e : Thrown) : never p (throw (A := A) e).
Proof. intros h. reflexivity. Qed.

Lemma never_await (A : Type) (c : Call) (answer : list Call -> Answer A) :
  p c = false -> never p (await c answer).
Proof.
  intros Hc h. unfold await. destruct (answer h); simpl; now rewrite Hc.
Qed.

Lemma never_await_catch (A : Type) (c : Call) (answer : list Call -> Answer A)
    (onRejected : JsError -> Thrown) :
  p c = false -> never p (await_catch c answer onRejected).
Proof.
  intros Hc h. unfold await_catch. destruct (answer h); simpl; now rewrite Hc.
Qed.

Lemma never_log_error (text : string) (e : Thrown) :
  p (Log_error text e) = false -> never p (log_error text e).
Proof. intros Hc h. simpl. now rewrite Hc. Qed.

Lemma never_bind (A B : Type) (m : M A) (k : A -> M B) :
  never p m -> (forall a, never p (k a)) -> never p (bind m k).
Proof.
  intros Hm Hk h. unfold bind. specialize (Hm h).
  destruct (m h) as [[a|e] issued]; simpl in *.
  - specialize (Hk a (h ++ issued)%list).
    destruct (k a (h ++ issued)%list) as [r issued']. simpl in *.
    rewrite existsb_app, Hm, Hk. reflexivity.
  - exact Hm.
Qed.

Lemma never_try_catch (A : Type) (body : M A) (handler : Thrown -> M A) :
  never p body -> (forall e, never p (handler e)) -> never p (try_catch body handler).
Proof.
  intros Hm Hk h. unfold try_catch. specialize (Hm h).
  destruct (body h) as [[a|e] issued]; simpl in *.
  - exact Hm.
  - specialize (Hk e (h ++ issued)%list).
    destruct (handler e (h ++ issued)%list) as [r issued']. simpl in *.
    rewrite existsb_app, Hm, Hk. reflexivity.
Qed.

End Never.

(** ** The two blocks of [updateExperimentSchedules] *)

Section Blocks.

Variable env : Env.t.
Variable SCHEDULE_TYPE_value : SCHEDULE_TYPE -> string.
Variable this : Collaborators.

(** A computation that starts with [startExperimentSchedular] stops there. *)
Lemma startExperimentSchedular_bind (B : Type)
    (timeStamp : option Date) (body_id : string) (type : SCHEDULE_TYPE)
    (k : StartExecutionOutput -> M B) (history : list Call) :
  bind (startExperimentSchedular env this timeStamp body_id type) k history =
    (Err (schedular_error
            (awsService_stepFunctionStartExecution this history
               (execution_request env timeStamp body_id type))),
     [AWSService_stepFunctionStartExecution
        (execution_request env timeStamp body_id type)]).
Proof.
  apply bind_err, startExperimentSchedular_run.
Qed.

(** In state [SCHEDULED], with a start job whose time stamp is the very
    object [startOn], the start block issues no call and completes. *)
Lemma updateStartSchedule_unchanged
    (experiment : Experiment.t) (doc : ScheduledJob.t) (history : list Call) :
  Experiment.state experiment = SCHEDULED ->
  ScheduledJob.timeStamp doc = Experiment.startOn experiment ->
  updateStartSchedule env SCHEDULE_TYPE_value this experiment (Some doc) history
  = (Ok tt, []).
Proof.
  intros Hs Ht. unfold updateStartSchedule.
  rewrite Hs, Ht, strict_neq_same, andb_false_r. reflexivity.
Qed.

(** When the end condition holds, with an end job whose time stamp is the
    very object [endOn], the end block issues no call and completes. *)
Lemma updateEndSchedule_unchanged
    (experiment : Experiment.t) (doc : ScheduledJob.t) (history : list Call) :
  Experiment.state experiment <> ENROLLMENT_COMPLETE ->
  Experiment.state experiment <> CANCELLED ->
  Experiment.endOn experiment <> None ->
  ScheduledJob.timeStamp doc = Experiment.endOn experiment ->
  updateEndSchedule env SCHEDULE_TYPE_value this experiment (Some doc) history
  = (Ok tt, []).
Proof.
  intros H1 H2 H3 Ht. unfold updateEndSchedule.
  rewrite (EXPERIMENT_STATE_eqb_neq H1), (EXPERIMENT_STATE_eqb_neq H2), Ht.
  rewrite strict_neq_same, andb_false_r.
  destruct (Experiment.endOn experiment); [reflexivity | now elim H3].
Qed.

(** In state [SCHEDULED], without a start job or with one whose time stamp
    differs from a set [startOn], the start block starts an execution and
    stops with the error of [startExperimentSchedular]. *)
Lemma updateStartSchedule_schedules
    (experiment : Experiment.t) (doc : option ScheduledJob.t) (history : list Call) :
  Experiment.state experiment = SCHEDULED ->
  match doc with
  | None => True
  | Some d =>
      Experiment.startOn experiment <> None /\
      ScheduledJob.timeStamp d <> Experiment.startOn experiment
  end ->
  exists body_id,
    updateStartSchedule env SCHEDULE_TYPE_value this experiment doc history =
      (Err (schedular_error
              (awsService_stepFunctionStartExecution this history
                 (execution_request env (Experiment.startOn experiment) body_id
                    START_EXPERIMENT))),
       [AWSService_stepFunctionStartExecution
          (execution_request env (Experiment.startOn experiment) body_id
             START_EXPERIMENT)]).
Proof.
  intros Hs Hd. unfold updateStartSchedule. rewrite Hs. simpl.
  destruct doc as [d|].
  - destruct Hd as [Hon Hne].
    assert (Hcond : truthy (Experiment.startOn experiment)
                    && strict_neq (ScheduledJob.timeStamp d)
                         (Experiment.startOn experiment) = true).
    { rewrite (strict_neq_differ Hne).
      destruct (Experiment.startOn experiment) as [x|]; [reflexivity | now elim Hon]. }
    rewrite Hcond. eexists. apply startExperimentSchedular_bind.
  - eexists. apply startExperimentSchedular_bind.
Qed.

(** Outside state [SCHEDULED], with a start job, the start block deletes
    the row and then, if the deletion went through, requests the stop of
    its execution. *)
Lemma updateStartSchedule_deletes
    (experiment : Experiment.t) (doc : ScheduledJob.t) (history : list Call) :
  Experiment.state experiment <> SCHEDULED ->
  scheduledJobRepository_delete this history (ScheduledJob.id doc) = Resolves tt ->
  exists r,
    updateStartSchedule env SCHEDULE_TYPE_value this experiment (Some doc) history =
      (r, [ScheduledJobRepository_delete (ScheduledJob.id doc);
           AWSService_stepFunctionStopExecution (ScheduledJob.executionArn doc)]).
Proof.
  intros Hs Hdel. unfold updateStartSchedule.
  rewrite (EXPERIMENT_STATE_eqb_neq Hs).
  unfold bind, await, stopExperimentSchedular, await. rewrite Hdel. simpl.
  destruct (awsService_stepFunctionStopExecution this _ _); eexists; reflexivity.
Qed.

(** When the end condition fails, with an end job, the end block deletes
    the row and then, if the deletion went through, requests the stop of
    its execution. *)
Lemma updateEndSchedule_deletes
    (experiment : Experiment.t) (doc : ScheduledJob.t) (history : list Call) :
  Experiment.state experiment = ENROLLMENT_COMPLETE
  \/ Experiment.state experiment = CANCELLED
  \/ Experiment.endOn experiment = None ->
  scheduledJobRepository_delete this history (ScheduledJob.id doc) = Resolves tt ->
  exists r,
    updateEndSchedule env SCHEDULE_TYPE_value this experiment (Some doc) history =
      (r, [ScheduledJobRepository_delete (ScheduledJob.id doc);
           AWSService_stepFunctionStopExecution (ScheduledJob.executionArn doc)]).
Proof.
  intros Hcond Hdel. unfold updateEndSchedule.
  assert (Hfalse :
            negb (EXPERIMENT_STATE_eqb (Experiment.state experiment) ENROLLMENT_COMPLETE
                  || EXPERIMENT_STATE_eqb (Experiment.state experiment) CANCELLED)
            && truthy (Experiment.endOn experiment) = false).
  { destruct Hcond as [-> | [-> | ->]]; simpl; try reflexivity.
    apply andb_false_r. }
  rewrite Hfalse.
  unfold bind, await, stopExperimentSchedular, await. rewrite Hdel. simpl.
  destruct (awsService_stepFunctionStopExecution this _ _); eexists; reflexivity.
Qed.

(** The calls a block can issue: the start of an execution with the
    callback of its own schedule type, the deletion of a row and the stop of
    an execution.  The write of a row comes after [startExperimentSchedular],
    which does not return, and is never reached. *)
Lemma updateStartSchedule_never (p : Call -> bool)
    (experiment : Experiment.t) (doc : option ScheduledJob.t) :
  (forall timeStamp body_id,
     p (AWSService_stepFunctionStartExecution
          (execution_request env timeStamp body_id START_EXPERIMENT)) = false) ->
  (forall id, p (ScheduledJobRepository_delete id) = false) ->
  (forall arn, p (AWSService_stepFunctionStopExecution arn) = false) ->
  never p (updateStartSchedule env SCHEDULE_TYPE_value this experiment doc).
Proof.
  intros Hstart Hdel Hstop h. unfold updateStartSchedule.
  destruct (EXPERIMENT_STATE_eqb _ _).
  - match goal with |- context [if ?c then _ else _] => destruct c end;
      [rewrite startExperimentSchedular_bind; simpl; now rewrite Hstart
      | reflexivity].
  - destruct doc as [d|]; [|reflexivity].
    apply never_bind; [now apply never_await|].
    intros _. now apply never_await.
Qed.

Lemma updateEndSchedule_never (p : Call -> bool)
    (experiment : Experiment.t) (doc : option ScheduledJob.t) :
  (forall timeStamp body_id,
     p (AWSService_stepFunctionStartExecution
          (execution_request env timeStamp body_id END_EXPERIMENT)) = false) ->
  (forall id, p (ScheduledJobRepository_delete id) = false) ->
  (forall arn, p (AWSService_stepFunctionStopExecution arn) = false) ->
  never p (updateEndSchedule env SCHEDULE_TYPE_value this experiment doc).
Proof.
  intros Hstart Hdel Hstop h. unfold updateEndSchedule.
  match goal with |- context [if ?c then _ else _] => destruct c end.
  - match goal with |- context [if ?c then _ else _] => destruct c end;
      [rewrite startExperimentSchedular_bind; simpl; now rewrite Hstart
      | reflexivity].
  - destruct doc as [d|]; [|reflexivity].
    apply never_bind; [now apply never_await|].
    intros _. now apply never_await.
Qed.

(** The two callback URLs differ. *)
Lemma callback_url_START_END :
  String.eqb (callback_url env START_EXPERIMENT) (callback_url env END_EXPERIMENT)
  = false.
Proof.
  unfold callback_url. induction (Env.hostUrl env) as [|a s' IH]; simpl.
  - reflexivity.
  - now rewrite Ascii.eqb_refl.
Qed.

End Blocks.

(** ** [updateExperimentSchedules] *)

Section UpdateExperimentSchedules.

Variable env : Env.t.
Variable SCHEDULE_TYPE_value : SCHEDULE_TYPE -> string.
Variable this : Collaborators.

Lemma try_catch_bind_ok (A B : Type) (m : M A) (k : A -> M B)
    (handler : Thrown -> M B) (history issued : list Call) (a : A) :
  m history = (Ok a, issued) ->
  try_catch (bind m k) handler history =
    (fst (try_catch (k a) handler (history ++ issued)%list),
     (issued ++ snd (try_catch (k a) handler (history ++ issued)%list))%list).
Proof.
  intros Hm. unfold try_catch, bind. rewrite Hm.
  destruct (k a (history ++ issued)%list) as [[b|e] issued']; simpl.
  - reflexivity.
  - rewrite <- app_assoc.
    destruct (handler e (history ++ issued ++ issued')%list) as [r issued''].
    simpl. now rewrite app_assoc.
Qed.

Lemma try_catch_bind_unit (B : Type) (m : M unit) (k : unit -> M B)
    (handler : Thrown -> M B) (history : list Call) :
  m history = (Ok tt, []) ->
  try_catch (bind m k) handler history = try_catch (k tt) handler history.
Proof.
  intros Hm. rewrite (try_catch_bind_ok _ _ _ _ Hm). rewrite app_nil_r. simpl.
  now destruct (try_catch (k tt) handler history).
Qed.

(** The look-up of the experiment's jobs on line 67. *)
Lemma find_resolves (experiment : Experiment.t) (history : list Call)
    (scheduledJobs : list ScheduledJob.t) :
  scheduledJobRepository_find this history (Experiment.id experiment)
    = Resolves scheduledJobs ->
  await (ScheduledJobRepository_find (Experiment.id experiment))
    (fun h => scheduledJobRepository_find this h (Experiment.id experiment)) history
  = (Ok scheduledJobs, [ScheduledJobRepository_find (Experiment.id experiment)]).
Proof. intros H. now apply await_resolves. Qed.


(** Whenever the start schedule is due (state [SCHEDULED], and no start job
    or a start job whose time stamp differs from a set [startOn]), the run
    consists of the look-up, the start of one execution and the logging of
    the error of [startExperimentSchedular]; the row is not written and the
    end block is not reached.  This holds whatever the step-function client
    answers. *)
Lemma updateExperimentSchedules_start_schedule_stops
    (experiment : Experiment.t) (history : list Call)
    (scheduledJobs : list ScheduledJob.t) :
  scheduledJobRepository_find this history (Experiment.id experiment)
    = Resolves scheduledJobs ->
  Experiment.state experiment = SCHEDULED ->
  match find_type START_EXPERIMENT scheduledJobs with
  | None => True
  | Some d =>
      Experiment.startOn experiment <> None /\
      ScheduledJob.timeStamp d <> Experiment.startOn experiment
  end ->
  exists body_id error,
    updateExperimentSchedules env SCHEDULE_TYPE_value this experiment history =
      (Ok tt,
       [ScheduledJobRepository_find (Experiment.id experiment);
        AWSService_stepFunctionStartExecution
          (execution_request env (Experiment.startOn experiment) body_id
             START_EXPERIMENT);
        Log_error "Error in experiment schedular " error]).
Proof.
  intros Hfind Hs Hdoc.
  destruct (updateStartSchedule_schedules env SCHEDULE_TYPE_value this experiment
              (find_type START_EXPERIMENT scheduledJobs)
              (history ++ [ScheduledJobRepository_find (Experiment.id experiment)])%list
              Hs Hdoc) as [body_id Hrun].
  exists body_id. eexists.
  unfold updateExperimentSchedules, updateExperimentSchedules_try.
  rewrite (try_catch_bind_ok _ _ _ _ (find_resolves _ _ Hfind)).
  unfold try_catch at 1 2. rewrite (bind_err _ _ _ Hrun). simpl. reflexivity.
Qed.

(** X17.  When the start block completes, the end condition fails and the
    jobs contain an end job, the end block is reached: the row of the end job is
    deleted and, the deletion having gone through, the stop of its execution
    is requested. *)
Lemma updateExperimentSchedules_deletes_end_job
    (experiment : Experiment.t) (history issued : list Call)
    (scheduledJobs : list ScheduledJob.t) (doc : ScheduledJob.t) :
  scheduledJobRepository_find this history (Experiment.id experiment)
    = Resolves scheduledJobs ->
  updateStartSchedule env SCHEDULE_TYPE_value this experiment
    (find_type START_EXPERIMENT scheduledJobs)
    (history ++ [ScheduledJobRepository_find (Experiment.id experiment)])%list
    = (Ok tt, issued) ->
  Experiment.state experiment = ENROLLMENT_COMPLETE
  \/ Experiment.state experiment = CANCELLED
  \/ Experiment.endOn experiment = None ->
  find_type END_EXPERIMENT scheduledJobs = Some doc ->
  scheduledJobRepository_delete this
    ((history ++ [ScheduledJobRepository_find (Experiment.id experiment)]) ++ issued)%list
    (ScheduledJob.id doc) = Resolves tt ->
  exists rest,
    snd (updateExperimentSchedules env SCHEDULE_TYPE_value this experiment history) =
      (ScheduledJobRepository_find (Experiment.id experiment)
       :: issued ++
          [ScheduledJobRepository_delete (ScheduledJob.id doc);
           AWSService_stepFunctionStopExecution (ScheduledJob.executionArn doc)]
          ++ rest)%list.
Proof.
  intros Hfind Hstart Hcond Hdoc Hdel.
  unfold updateExperimentSchedules, updateExperimentSchedules_try.
  rewrite (try_catch_bind_ok _ _ _ _ (find_resolves _ _ Hfind)).
  rewrite (try_catch_bind_ok _ _ _ _ Hstart). rewrite Hdoc. simpl.
  destruct (updateEndSchedule_deletes env SCHEDULE_TYPE_value this experiment doc _
              Hcond Hdel) as [r Hrun].
  unfold try_catch. rewrite Hrun.
  destruct r as [[]|e]; simpl; eexists; reflexivity.
Qed.

(** X21.  No scheduled-job row is ever written by
    [updateExperimentSchedules], whatever the experiment, whatever the
    collaborators answer and whatever was issued before: both writes (lines
    94-98 and 131-135) come after a call of [startExperimentSchedular], which
    throws on line 168 instead of returning the handle. *)
Theorem updateExperimentSchedules_never_upserts
    (experiment : Experiment.t) (history : list Call) :
  existsb is_upsert
    (snd (updateExperimentSchedules env SCHEDULE_TYPE_value this experiment history))
  = false.
Proof.
  revert history.
  change (never is_upsert
            (updateExperimentSchedules env SCHEDULE_TYPE_value this experiment)).
  unfold updateExperimentSchedules, updateExperimentSchedules_try.
  apply never_try_catch.
  - apply never_bind; [now apply never_await|]. intros jobs.
    apply never_bind; [now apply updateStartSchedule_never|]. intros _.
    now apply updateEndSchedule_never.
  - intros e. now apply never_log_error.
Qed.

(** C4.  For an experiment whose state is not [SCHEDULED] and whose jobs
    contain a start job, [updateExperimentSchedules] first looks the jobs up,
    then deletes the row of that job (by its [id]) and, the deletion having
    gone through, requests the stop of the execution named by the job's
    [executionArn]. *)
Theorem updateExperimentSchedules_deletes_start_job
    (experiment : Experiment.t) (history : list Call)
    (scheduledJobs : list ScheduledJob.t) (doc : ScheduledJob.t) :
  Experiment.state experiment <> SCHEDULED ->
  scheduledJobRepository_find this history (Experiment.id experiment)
    = Resolves scheduledJobs ->
  find_type START_EXPERIMENT scheduledJobs = Some doc ->
  scheduledJobRepository_delete this
    (history ++ [ScheduledJobRepository_find (Experiment.id experiment)])%list
    (ScheduledJob.id doc) = Resolves tt ->
  exists rest,
    snd (updateExperimentSchedules env SCHEDULE_TYPE_value this experiment history) =
      ([ScheduledJobRepository_find (Experiment.id experiment);
        ScheduledJobRepository_delete (ScheduledJob.id doc);
        AWSService_stepFunctionStopExecution (ScheduledJob.executionArn doc)]
       ++ rest)%list.
Proof.
  intros Hs Hfind Hdoc Hdel.
  unfold updateExperimentSchedules, updateExperimentSchedules_try.
  rewrite (try_catch_bind_ok _ _ _ _ (find_resolves _ _ Hfind)). simpl.
  rewrite Hdoc.
  destruct (updateStartSchedule_deletes env SCHEDULE_TYPE_value this _ _ _ Hs Hdel)
    as [r Hrun].
  destruct r as [[]|e].
  - rewrite (try_catch_bind_ok _ _ _ _ Hrun). simpl. eexists. reflexivity.
  - unfold try_catch at 1. rewrite (bind_err _ _ _ Hrun). simpl.
    eexists. reflexivity.
Qed.

(** The test of lines 74 and 112 by identity.  Let the look-up of the
    experiment's jobs resolve.  If the state is [SCHEDULED] and the time stamp
    of the start job is the very object [startOn], the run is the run of the
    function without its start block, and no execution is started with the
    start callback.  Likewise, if the end condition holds and the time stamp
    of the end job is the very object [endOn], the run is the run of the
    function without its end block, and no execution is started with the end
    callback.  A row that holds the instant of [startOn] in another object
    does not qualify. *)
Lemma updateExperimentSchedules_unchanged_schedule
    (experiment : Experiment.t) (history : list Call)
    (scheduledJobs : list ScheduledJob.t) :
  scheduledJobRepository_find this history (Experiment.id experiment)
    = Resolves scheduledJobs ->
  (forall doc,
     Experiment.state experiment = SCHEDULED ->
     find_type START_EXPERIMENT scheduledJobs = Some doc ->
     ScheduledJob.timeStamp doc = Experiment.startOn experiment ->
     updateExperimentSchedules env SCHEDULE_TYPE_value this experiment history
       = updateExperimentSchedules_end_only env SCHEDULE_TYPE_value this experiment
           history
     /\ existsb (starts_execution_with (callback_url env START_EXPERIMENT))
          (snd (updateExperimentSchedules env SCHEDULE_TYPE_value this experiment
                  history)) = false)
  /\
  (forall doc,
     Experiment.state experiment <> ENROLLMENT_COMPLETE ->
     Experiment.state experiment <> CANCELLED ->
     Experiment.endOn experiment <> None ->
     find_type END_EXPERIMENT scheduledJobs = Some doc ->
     ScheduledJob.timeStamp doc = Experiment.endOn experiment ->
     updateExperimentSchedules env SCHEDULE_TYPE_value this experiment history
       = updateExperimentSchedules_start_only env SCHEDULE_TYPE_value this experiment
           history
     /\ existsb (starts_execution_with (callback_url env END_EXPERIMENT))
          (snd (updateExperimentSchedules env SCHEDULE_TYPE_value this experiment
                  history)) = false).
Proof.
  intros Hfind. split.
  - intros doc Hs Hdoc Ht.
    assert (Heq : updateExperimentSchedules env SCHEDULE_TYPE_value this experiment
                    history
                  = updateExperimentSchedules_end_only env SCHEDULE_TYPE_value this
                      experiment history).
    { unfold updateExperimentSchedules, updateExperimentSchedules_try,
        updateExperimentSchedules_end_only.
      rewrite !(try_catch_bind_ok _ _ _ _ (find_resolves _ _ Hfind)).
      rewrite Hdoc.
      rewrite try_catch_bind_unit
        by (now apply updateStartSchedule_unchanged).
      reflexivity. }
    split; [exact Heq|]. rewrite Heq.
    unfold updateExperimentSchedules_end_only.
    apply never_try_catch.
    + apply never_bind; [now apply never_await|]. intros jobs.
      apply updateEndSchedule_never; try reflexivity.
      intros ts b. simpl. rewrite String.eqb_sym. apply callback_url_START_END.
    + intros e. now apply never_log_error.
  - intros doc H1 H2 H3 Hdoc Ht.
    assert (Heq : updateExperimentSchedules env SCHEDULE_TYPE_value this experiment
                    history
                  = updateExperimentSchedules_start_only env SCHEDULE_TYPE_value this
                      experiment history).
    { unfold updateExperimentSchedules, updateExperimentSchedules_try,
        updateExperimentSchedules_start_only.
      rewrite !(try_catch_bind_ok _ _ _ _ (find_resolves _ _ Hfind)).
      rewrite Hdoc. f_equal.
      - unfold try_catch, bind.
        destruct (updateStartSchedule _ _ _ _ _ _) as [[[]|e] issued]; [|reflexivity].
        rewrite updateEndSchedule_unchanged by assumption. reflexivity.
      - unfold try_catch, bind.
        destruct (updateStartSchedule _ _ _ _ _ _) as [[[]|e] issued]; [|reflexivity].
        rewrite updateEndSchedule_unchanged by assumption.
        simpl. now rewrite app_nil_r. }
    split; [exact Heq|]. rewrite Heq.
    unfold updateExperimentSchedules_start_only.
    apply never_try_catch.
    + apply never_bind; [now apply never_await|]. intros jobs.
      apply updateStartSchedule_never; try reflexivity.
      intros ts b. simpl. apply callback_url_START_END.
    + intros e. now apply never_log_error.
Qed.

End UpdateExperimentSchedules.

(** ** The service on the in-memory collaborators *)

Section Scenarios.

Import InMemory.

(** C1.  An experiment in state [SCHEDULED] with [startOn] set and no start
    job: the start API is called and answers with a handle, but line 168
    throws, the error is logged and the row is not written.  The same happens
    for the end schedule of an [ENROLLING] experiment with [endOn] set and no
    end job. *)
Theorem updateExperimentSchedules_schedule_not_persisted :
  updateExperimentSchedules env SCHEDULE_TYPE_value
    (collaborators [] [experiment SCHEDULED (Some 1000%Z) None] [systemUserDoc] "arn:new")
    (experiment SCHEDULED (Some 1000%Z) None) []
  = (Ok tt,
     [ScheduledJobRepository_find "e1";
      AWSService_stepFunctionStartExecution
        {| stateMachineArn := "arn:machine";
           input := {| input_timeStamp := Some (given 1000);
                       input_body_id := "e1_START_EXPERIMENT";
                       input_url := "http://host/scheduledJobs/start" |} |};
      logged])
  /\
  updateExperimentSchedules env SCHEDULE_TYPE_value
    (collaborators [] [experiment ENROLLING None (Some 3000%Z)] [systemUserDoc] "arn:new")
    (experiment ENROLLING None (Some 3000%Z)) []
  = (Ok tt,
     [ScheduledJobRepository_find "e1";
      AWSService_stepFunctionStartExecution
        {| stateMachineArn := "arn:machine";
           input := {| input_timeStamp := Some (given 3000);
                       input_body_id := "e1_END_EXPERIMENT";
                       input_url := "http://host/scheduledJobs/end" |} |};
      logged]).
Proof. split; reflexivity. Qed.

(** C5.  An experiment in state [SCHEDULED] with [startOn] set, no [endOn],
    no start job and an end job: the end condition fails and an end job
    exists, yet the end job is neither deleted nor stopped, because the start
    block has thrown (line 168) before the end block is reached. *)
Theorem updateExperimentSchedules_end_job_kept :
  updateExperimentSchedules env SCHEDULE_TYPE_value
    (collaborators [endJob] [experiment SCHEDULED (Some 1000%Z) None] [systemUserDoc]
       "arn:new")
    (experiment SCHEDULED (Some 1000%Z) None) []
  = (Ok tt,
     [ScheduledJobRepository_find "e1";
      AWSService_stepFunctionStartExecution
        {| stateMachineArn := "arn:machine";
           input := {| input_timeStamp := Some (given 1000);
                       input_body_id := "e1_START_EXPERIMENT";
                       input_url := "http://host/scheduledJobs/start" |} |};
      logged]).
Proof. reflexivity. Qed.

(** C8.  An id without a scheduled-job row: [startExperiment] returns [{}]
    after the one look-up, while [endExperiment] rejects with the
    [TypeError] of line 40 instead of returning [{}]. *)
Theorem endExperiment_rejects_without_job :
  startExperiment systemUserDoc (collaborators [] [] [systemUserDoc] "arn:new")
    "missing" []
  = (Ok EmptyObject, [ScheduledJobRepository_findOne "missing"])
  /\
  endExperiment systemUserDoc (collaborators [] [] [systemUserDoc] "arn:new")
    "missing" []
  = (Err (TypeError "Cannot read property 'experimentId' of undefined"),
     [ScheduledJobRepository_findOne "missing"]).
Proof. split; reflexivity. Qed.

(** C3.  An experiment in state [SCHEDULED] whose start job holds the
    instant of [startOn], in the [Date] object of the row: the dates are
    equal, yet [!==] on line 74 compares the two objects, so the start API is
    called again (and line 168 throws, which is logged).  Likewise for an
    [ENROLLING] experiment whose end job holds the instant of [endOn]: the
    test of line 112 succeeds and the end API is called. *)
Theorem updateExperimentSchedules_reschedules_equal_dates :
  (option_map getTime (ScheduledJob.timeStamp startJob)
   = option_map getTime (Experiment.startOn (experiment SCHEDULED (Some 1000%Z) None))
   /\
   updateExperimentSchedules env SCHEDULE_TYPE_value
     (collaborators [startJob] [experiment SCHEDULED (Some 1000%Z) None] [systemUserDoc]
        "arn:new")
     (experiment SCHEDULED (Some 1000%Z) None) []
   = (Ok tt,
      [ScheduledJobRepository_find "e1";
       AWSService_stepFunctionStartExecution
         {| stateMachineArn := "arn:machine";
            input := {| input_timeStamp := Some (given 1000);
                        input_body_id := "e1_START_EXPERIMENT";
                        input_url := "http://host/scheduledJobs/start" |} |};
       logged]))
  /\
  (option_map getTime (ScheduledJob.timeStamp endJob)
   = option_map getTime (Experiment.endOn (experiment ENROLLING None (Some 2000%Z)))
   /\
   updateExperimentSchedules env SCHEDULE_TYPE_value
     (collaborators [endJob] [experiment ENROLLING None (Some 2000%Z)] [systemUserDoc]
        "arn:new")
     (experiment ENROLLING None (Some 2000%Z)) []
   = (Ok tt,
      [ScheduledJobRepository_find "e1";
       AWSService_stepFunctionStartExecution
         {| stateMachineArn := "arn:machine";
            input := {| input_timeStamp := Some (given 2000);
                        input_body_id := "e1_END_EXPERIMENT";
                        input_url := "http://host/scheduledJobs/end" |} |};
       logged])).
Proof. repeat split. Qed.

End Scenarios.

(** ** [typeormLoader] *)

Section Loader.

Import TypeormLoader.

Variable env : Env.t.
Variable createConnection : ConnectionOptions -> Answer Connection.

Lemma is_ECONNREFUSED_code (error : JsError) :
  is_ECONNREFUSED error = true <-> code error = Some "ECONNREFUSED".
Proof.
  unfold is_ECONNREFUSED. destruct (code error) as [c|].
  - rewrite String.eqb_eq. split; [now intros -> | now intros [= ->]].
  - split; discriminate.
Qed.

Lemma getData_setData (key : string) (value : Connection)
    (settings : MicroframeworkSettings) :
  getData key (setData key value settings) = Some value.
Proof.
  unfold getData, setData. simpl. now rewrite String.eqb_refl.
Qed.

(** C10.  Let [getConnectionOptions] resolve.  When [createConnection]
    rejects, the loader rejects with [SERVER_ERROR.DB_UNREACHABLE] if and only
    if the [code] of the rejection is ['ECONNREFUSED'], and with
    [SERVER_ERROR.DB_AUTH_FAIL] in every other case.  When [createConnection]
    resolves and settings are provided, the loader completes, the connection
    is stored under the key ['connection'] and one more shutdown handler is
    registered, which closes that connection. *)
Theorem typeormLoader_classifies_failures
    (getConnectionOptions : Answer ConnectionOptions)
    (loadedConnectionOptions : ConnectionOptions)
    (settings : option MicroframeworkSettings) :
  getConnectionOptions = Resolves loadedConnectionOptions ->
  (forall error,
     createConnection (assign loadedConnectionOptions env) = Rejects error ->
     (settled (typeormLoader env getConnectionOptions createConnection settings)
        = Err (Error_of DB_UNREACHABLE)
      <-> code error = Some "ECONNREFUSED")
     /\
     (code error <> Some "ECONNREFUSED" ->
      settled (typeormLoader env getConnectionOptions createConnection settings)
        = Err (Error_of DB_AUTH_FAIL)))
  /\
  (forall connection s,
     createConnection (assign loadedConnectionOptions env) = Resolves connection ->
     settings = Some s ->
     exists s',
       typeormLoader env getConnectionOptions createConnection settings
         = {| settled := Ok tt; settings_after := Some s'; console := [] |}
       /\ getData "connection" s' = Some connection
       /\ shutdownHandlers s' =
            (shutdownHandlers s ++ [Connection_close connection])%list).
Proof.
  intros ->. split.
  - intros error Hcreate. unfold typeormLoader. rewrite Hcreate. simpl.
    pose proof (is_ECONNREFUSED_code error) as Hcode.
    destruct (is_ECONNREFUSED error).
    + split; [split; [intros _; now apply Hcode | reflexivity]
             | intros Hne; elim Hne; now apply Hcode].
    + split; [split; [discriminate | intros H; apply Hcode in H; discriminate]
             | intros _; reflexivity].
  - intros connection s Hcreate ->. unfold typeormLoader. rewrite Hcreate.
    eexists. split; [reflexivity|]. split.
    + unfold onShutdown, getData. simpl. reflexivity.
    + reflexivity.
Qed.

End Loader.

(** ** Instances *)

Section Instances.

Import InMemory.

(** The delegation of C2 on the in-memory collaborators, for the start job
    of experiment [e1]. *)
Lemma startExperiment_endExperiment_delegate_instance :
  startExperiment systemUserDoc
    (collaborators [startJob; endJob] [experiment SCHEDULED (Some 1000%Z) None]
       [systemUserDoc] "arn:new")
    "e1_START_EXPERIMENT" []
  = (Ok (FromUpdateState 3),
     [ScheduledJobRepository_findOne "e1_START_EXPERIMENT";
      ExperimentRepository_findOne (Some "e1");
      UserRepository_findOne "system";
      ExperimentService_updateState (Some "e1") ENROLLING (Some systemUserDoc)])
  /\
  endExperiment systemUserDoc
    (collaborators [startJob; endJob] [experiment SCHEDULED (Some 1000%Z) None]
       [systemUserDoc] "arn:new")
    "e1_START_EXPERIMENT" []
  = (Ok (FromUpdateState 3),
     [ScheduledJobRepository_findOne "e1_START_EXPERIMENT";
      ExperimentRepository_findOne (Some "e1");
      UserRepository_findOne "system";
      ExperimentService_updateState (Some "e1") ENROLLMENT_COMPLETE
        (Some systemUserDoc)]).
Proof.
  apply (startExperiment_endExperiment_delegate systemUserDoc
           (collaborators [startJob; endJob] [experiment SCHEDULED (Some 1000%Z) None]
              [systemUserDoc] "arn:new")
           "e1_START_EXPERIMENT" (experimentId := "e1") []
           (job := startJob) (experiment := experiment SCHEDULED (Some 1000%Z) None)
           (systemUser := Some systemUserDoc)).
  - reflexivity.
  - reflexivity.
  - discriminate.
  - reflexivity.
  - reflexivity.
Defined.

(** C4 on an [ENROLLING] experiment that still has its start job. *)
Lemma updateExperimentSchedules_deletes_start_job_instance :
  exists rest,
    snd (updateExperimentSchedules env SCHEDULE_TYPE_value
           (collaborators [startJob; endJob] [] [] "arn:new")
           (experiment ENROLLING (Some 1000%Z) (Some 2000%Z)) [])
    = ([ScheduledJobRepository_find "e1";
        ScheduledJobRepository_delete "e1_START_EXPERIMENT";
        AWSService_stepFunctionStopExecution (Some "arn:old-start")] ++ rest)%list.
Proof.
  apply (updateExperimentSchedules_deletes_start_job env SCHEDULE_TYPE_value
           (collaborators [startJob; endJob] [] [] "arn:new")
           (experiment ENROLLING (Some 1000%Z) (Some 2000%Z)) []
           (scheduledJobs := [startJob; endJob]) (doc := startJob)).
  - discriminate.
  - reflexivity.
  - reflexivity.
  - reflexivity.
Defined.


(** C10 on a refused connection, on a failed authentication and on a
    connection that is established. *)
Lemma typeormLoader_classifies_failures_instance :
  TypeormLoader.settled
    (TypeormLoader.typeormLoader env (Resolves LoaderInputs.loaded)
       (fun _ => Rejects LoaderInputs.refused) (Some LoaderInputs.settings))
  = Err (Error_of DB_UNREACHABLE)
  /\
  TypeormLoader.settled
    (TypeormLoader.typeormLoader env (Resolves LoaderInputs.loaded)
       (fun _ => Rejects LoaderInputs.bad_password) (Some LoaderInputs.settings))
  = Err (Error_of DB_AUTH_FAIL)
  /\
  exists s',
    TypeormLoader.typeormLoader env (Resolves LoaderInputs.loaded)
      (fun _ => Resolves 7%nat) (Some LoaderInputs.settings)
    = {| TypeormLoader.settled := Ok tt;
         TypeormLoader.settings_after := Some s';
         TypeormLoader.console := [] |}
    /\ TypeormLoader.getData "connection" s' = Some 7%nat
    /\ TypeormLoader.shutdownHandlers s' =
         [TypeormLoader.Connection_close 3%nat; TypeormLoader.Connection_close 7%nat].
Proof.
  split; [|split].
  - destruct (typeormLoader_classifies_failures env
                (fun _ => Rejects LoaderInputs.refused)
                (loadedConnectionOptions := LoaderInputs.loaded)
                (Some LoaderInputs.settings) eq_refl) as [Hrejects _].
    destruct (Hrejects LoaderInputs.refused eq_refl) as [Hiff _].
    apply Hiff. reflexivity.
  - destruct (typeormLoader_classifies_failures env
                (fun _ => Rejects LoaderInputs.bad_password)
                (loadedConnectionOptions := LoaderInputs.loaded)
                (Some LoaderInputs.settings) eq_refl) as [Hrejects _].
    destruct (Hrejects LoaderInputs.bad_password eq_refl) as [_ Hother].
    apply Hother. discriminate.
  - destruct (typeormLoader_classifies_failures env
                (fun _ => Resolves 7%nat)
                (loadedConnectionOptions := LoaderInputs.loaded)
                (Some LoaderInputs.settings) eq_refl) as [_ Hresolves].
    exact (Hresolves 7%nat LoaderInputs.settings eq_refl eq_refl).
Defined.

End Instances.

(** * Further properties of the service *)

(** ** [startExperiment] and [endExperiment] on every input *)

Section Callbacks.

Variable systemUserDoc : User.t.
Variable this : Collaborators.

Lemma truthy_string_falsy (value : option string) :
  falsy_string value -> truthy_string value = false.
Proof. now intros [-> | ->]. Qed.


(** X2.  Neither function changes a row of the scheduled-job table or an
    execution of the step function: all they issue are look-ups and the call
    of [updateState]. *)
Theorem startExperiment_endExperiment_change_no_schedule
    (id : string) (history : list Call) :
  existsb changes_schedules (snd (startExperiment systemUserDoc this id history)) = false
  /\
  existsb changes_schedules (snd (endExperiment systemUserDoc this id history)) = false.
Proof.
  split.
  - revert history.
    change (never changes_schedules (startExperiment systemUserDoc this id)).
    unfold startExperiment.
    apply never_bind; [now apply never_await|]. intros [job|]; [|apply never_ret].
    destruct (truthy_string _); [|apply never_ret].
    apply never_bind; [now apply never_await|]. intros e.
    destruct (truthy e); [|apply never_ret].
    apply never_bind; [now apply never_await|]. intros u.
    apply never_bind; [now apply never_await|]. intros v. apply never_ret.
  - revert history.
    change (never changes_schedules (endExperiment systemUserDoc this id)).
    unfold endExperiment.
    apply never_bind; [now apply never_await|]. intros job.
    apply never_bind; [destruct job; [apply never_ret | apply never_throw]|].
    intros eid.
    apply never_bind; [now apply never_await|]. intros e.
    destruct (truthy job && truthy e); [|apply never_ret].
    apply never_bind; [now apply never_await|]. intros u.
    apply never_bind; [now apply never_await|]. intros v. apply never_ret.
Qed.

(** X3.  A job whose [experimentId] is [undefined] or the empty string
    makes [startExperiment] return [{}] right after the look-up of the job:
    no experiment and no user is looked up. *)
Theorem startExperiment_job_without_experimentId
    (id : string) (history : list Call) (job : ScheduledJob.t) :
  scheduledJobRepository_findOne this history id = Resolves (Some job) ->
  falsy_string (ScheduledJob.experimentId job) ->
  startExperiment systemUserDoc this id history
  = (Ok EmptyObject, [ScheduledJobRepository_findOne id]).
Proof.
  intros Hjob Hfalsy. unfold startExperiment, bind, await.
  rewrite Hjob, (truthy_string_falsy Hfalsy). reflexivity.
Qed.

(** X4.  A job whose experiment is gone: both functions return [{}] after
    the two look-ups; the system user is not looked up and [updateState] is
    not called. *)
Theorem startExperiment_endExperiment_orphan_job
    (id experimentId : string) (history : list Call) (job : ScheduledJob.t) :
  scheduledJobRepository_findOne this history id = Resolves (Some job) ->
  ScheduledJob.experimentId job = Some experimentId ->
  experimentId <> "" ->
  experimentRepository_findOne this
    (history ++ [ScheduledJobRepository_findOne id])%list (Some experimentId)
    = Resolves None ->
  startExperiment systemUserDoc this id history
  = (Ok EmptyObject,
     [ScheduledJobRepository_findOne id;
      ExperimentRepository_findOne (Some experimentId)])
  /\
  endExperiment systemUserDoc this id history
  = (Ok EmptyObject,
     [ScheduledJobRepository_findOne id;
      ExperimentRepository_findOne (Some experimentId)]).
Proof.
  intros Hjob Hid Hne Hexp.
  pose proof (truthy_string_nonempty Hne) as Htruthy.
  split.
  - unfold startExperiment, bind, await.
    rewrite Hjob, Hid, Htruthy, Hexp. reflexivity.
  - unfold endExperiment, bind, await.
    rewrite Hjob. simpl. rewrite Hid, app_nil_r, Hexp. reflexivity.
Qed.

(** X5.  [endExperiment] does not test [experimentId]: whatever the
    [experimentId] of the job, also [undefined] or the empty string, it asks
    the experiment repository with that value, and if the repository answers
    with a row it calls [updateState] with that value as the experiment's
    id. *)
Theorem endExperiment_any_experimentId
    (id : string) (history : list Call)
    (job : ScheduledJob.t) (experiment : Experiment.t) (systemUser : option User.t) :
  scheduledJobRepository_findOne this history id = Resolves (Some job) ->
  experimentRepository_findOne this
    (history ++ [ScheduledJobRepository_findOne id])%list
    (ScheduledJob.experimentId job) = Resolves (Some experiment) ->
  userRepository_findOne this
    (history ++ [ScheduledJobRepository_findOne id;
                 ExperimentRepository_findOne (ScheduledJob.experimentId job)])%list
    (User.id systemUserDoc) = Resolves systemUser ->
  snd (endExperiment systemUserDoc this id history)
  = [ScheduledJobRepository_findOne id;
     ExperimentRepository_findOne (ScheduledJob.experimentId job);
     UserRepository_findOne (User.id systemUserDoc);
     ExperimentService_updateState (ScheduledJob.experimentId job)
       ENROLLMENT_COMPLETE systemUser].
Proof.
  intros Hjob Hexp Huser. unfold endExperiment, bind, await.
  rewrite Hjob. simpl. rewrite app_nil_r, Hexp. simpl.
  rewrite <- app_assoc. simpl. rewrite Huser.
  destruct (experimentService_updateState this _ _ _ _); reflexivity.
Qed.

(** X6.  The only transition [startExperiment] ever asks for is to
    [ENROLLING], and it asks for it with a non-empty experiment id; the only
    transition [endExperiment] ever asks for is to [ENROLLMENT_COMPLETE]. *)
Theorem startExperiment_endExperiment_transitions
    (id : string) (history : list Call)
    (experimentId : option string) (state : EXPERIMENT_STATE) (user : option User.t) :
  (In (ExperimentService_updateState experimentId state user)
      (snd (startExperiment systemUserDoc this id history)) ->
   state = ENROLLING /\ truthy_string experimentId = true)
  /\
  (In (ExperimentService_updateState experimentId state user)
      (snd (endExperiment systemUserDoc this id history)) ->
   state = ENROLLMENT_COMPLETE).
Proof.
  split.
  - unfold startExperiment, bind, await.
    destruct (scheduledJobRepository_findOne this history id) as [[job|]|r]; simpl;
      try (intros [H|[]]; discriminate).
    destruct (truthy_string (ScheduledJob.experimentId job)) eqn:Htruthy; simpl;
      try (intros [H|[]]; discriminate).
    destruct (experimentRepository_findOne this _ _) as [[e|]|r]; simpl;
      try (intros [H|[H|[]]]; discriminate).
    destruct (userRepository_findOne this _ _) as [u|r]; simpl;
      try (intros [H|[H|[H|[]]]]; discriminate).
    destruct (experimentService_updateState this _ _ _ _) as [v|r]; simpl;
      (intros [H|[H|[H|[H|[]]]]]; try discriminate;
       injection H as <- <- <-; now split).
  - unfold endExperiment, bind, await.
    destruct (scheduledJobRepository_findOne this history id) as [[job|]|r]; simpl;
      try (intros [H|[]]; discriminate).
    destruct (experimentRepository_findOne this _ _) as [[e|]|r]; simpl;
      try (intros [H|[H|[]]]; discriminate).
    destruct (userRepository_findOne this _ _) as [u|r]; simpl;
      try (intros [H|[H|[H|[]]]]; discriminate).
    destruct (experimentService_updateState this _ _ _ _) as [v|r]; simpl;
      (intros [H|[H|[H|[H|[]]]]]; try discriminate;
       now injection H as <- <- <-).
Qed.

(** X7.  Neither function catches anything: when the look-up of the job
    rejects, both reject with that reason and have issued nothing else. *)
Theorem startExperiment_endExperiment_lookup_rejects
    (id : string) (history : list Call) (reason : JsError) :
  scheduledJobRepository_findOne this history id = Rejects reason ->
  startExperiment systemUserDoc this id history
  = (Err (Rejected reason), [ScheduledJobRepository_findOne id])
  /\
  endExperiment systemUserDoc this id history
  = (Err (Rejected reason), [ScheduledJobRepository_findOne id]).
Proof.
  intros H. unfold startExperiment, endExperiment, bind, await.
  now rewrite H.
Qed.

End Callbacks.

(** ** [startExperimentSchedular] and [updateExperimentSchedules] on every input *)

Section Runs.

Variable env : Env.t.
Variable SCHEDULE_TYPE_value : SCHEDULE_TYPE -> string.
Variable this : Collaborators.

(** Runs a computation of the service by cases on every answer and every
    test it meets. *)
Ltac by_cases :=
  repeat (simpl;
          match goal with
          | |- context [match ?x with _ => _ end] =>
              lazymatch x with
              | context [match _ with _ => _ end] => fail
              | _ => destruct x eqn:?
              end
          end).

(** X8.  [startExperimentSchedular] never resolves: whatever the
    step-function client answers, its promise rejects with an error whose
    serialised [type] is [SERVER_ERROR.QUERY_FAILED]. *)
Theorem startExperimentSchedular_never_resolves
    (timeStamp : option Date) (body_id : string) (type : SCHEDULE_TYPE)
    (history : list Call) :
  exists text,
    fst (startExperimentSchedular env this timeStamp body_id type history)
    = Err (Error_json QUERY_FAILED text).
Proof.
  rewrite startExperimentSchedular_run. simpl. unfold schedular_error.
  destruct (awsService_stepFunctionStartExecution this history _); eexists; reflexivity.
Qed.

(** X9.  When the look-up of the experiment's jobs rejects, the rejection
    is logged and nothing else is attempted. *)
Theorem updateExperimentSchedules_lookup_rejects
    (experiment : Experiment.t) (history : list Call) (reason : JsError) :
  scheduledJobRepository_find this history (Experiment.id experiment) = Rejects reason ->
  updateExperimentSchedules env SCHEDULE_TYPE_value this experiment history
  = (Ok tt,
     [ScheduledJobRepository_find (Experiment.id experiment);
      Log_error "Error in experiment schedular " (Rejected reason)]).
Proof.
  intros H.
  unfold updateExperimentSchedules, updateExperimentSchedules_try, try_catch, bind, await.
  now rewrite H.
Qed.

(** X10.  Outside state [SCHEDULED], with a start job whose deletion
    rejects: the rejection is logged, the stop of the job's execution is not
    requested and the end schedule is not looked at. *)
Theorem updateExperimentSchedules_delete_rejects
    (experiment : Experiment.t) (history : list Call)
    (scheduledJobs : list ScheduledJob.t) (doc : ScheduledJob.t) (reason : JsError) :
  Experiment.state experiment <> SCHEDULED ->
  scheduledJobRepository_find this history (Experiment.id experiment)
    = Resolves scheduledJobs ->
  find_type START_EXPERIMENT scheduledJobs = Some doc ->
  scheduledJobRepository_delete this
    (history ++ [ScheduledJobRepository_find (Experiment.id experiment)])%list
    (ScheduledJob.id doc) = Rejects reason ->
  updateExperimentSchedules env SCHEDULE_TYPE_value this experiment history
  = (Ok tt,
     [ScheduledJobRepository_find (Experiment.id experiment);
      ScheduledJobRepository_delete (ScheduledJob.id doc);
      Log_error "Error in experiment schedular " (Rejected reason)]).
Proof.
  intros Hs Hfind Hdoc Hdel.
  unfold updateExperimentSchedules, updateExperimentSchedules_try, try_catch, bind, await,
    updateStartSchedule.
  rewrite Hfind, Hdoc, (EXPERIMENT_STATE_eqb_neq Hs).
  unfold bind, await. rewrite Hdel. reflexivity.
Qed.

(** X11.  Nothing to do: when the experiment has neither a start job nor an
    end job, its state is not [SCHEDULED] and its end condition fails, the
    run consists of the look-up of the jobs. *)
Theorem updateExperimentSchedules_nothing_to_do
    (experiment : Experiment.t) (history : list Call)
    (scheduledJobs : list ScheduledJob.t) :
  scheduledJobRepository_find this history (Experiment.id experiment)
    = Resolves scheduledJobs ->
  find_type START_EXPERIMENT scheduledJobs = None ->
  find_type END_EXPERIMENT scheduledJobs = None ->
  Experiment.state experiment <> SCHEDULED ->
  end_condition_fails experiment ->
  updateExperimentSchedules env SCHEDULE_TYPE_value this experiment history
  = (Ok tt, [ScheduledJobRepository_find (Experiment.id experiment)]).
Proof.
  intros Hfind Hstart Hend Hs Hcond.
  unfold updateExperimentSchedules, updateExperimentSchedules_try, try_catch, bind, await,
    updateStartSchedule, updateEndSchedule.
  rewrite Hfind, Hstart, Hend, (EXPERIMENT_STATE_eqb_neq Hs).
  assert (Hfalse :
            negb (EXPERIMENT_STATE_eqb (Experiment.state experiment) ENROLLMENT_COMPLETE
                  || EXPERIMENT_STATE_eqb (Experiment.state experiment) CANCELLED)
            && truthy (Experiment.endOn experiment) = false).
  { destruct Hcond as [-> | [-> | ->]]; simpl; try reflexivity. apply andb_false_r. }
  rewrite Hfalse. reflexivity.
Qed.

(** Unfolds a run of [updateExperimentSchedules] down to the answers of
    the collaborators. *)
Ltac unfold_run :=
  unfold updateExperimentSchedules, updateExperimentSchedules_try, try_catch,
    updateStartSchedule, updateEndSchedule, startExperimentSchedular,
    stopExperimentSchedular, log_error, bind, await, await_catch, ret, throw.

(** X12.  A run starts at most one step-function execution, whatever the
    experiment and whatever the collaborators answer. *)
Theorem updateExperimentSchedules_starts_at_most_one
    (experiment : Experiment.t) (history : list Call) :
  length (filter is_start_execution
            (snd (updateExperimentSchedules env SCHEDULE_TYPE_value this experiment
                    history))) <= 1.
Proof.
  unfold_run. by_cases; simpl; lia.
Qed.

(** X13.  A run issues at most six calls, among them at most two deletions
    of a row and at most two requests to stop an execution. *)
Theorem updateExperimentSchedules_call_budget
    (experiment : Experiment.t) (history : list Call) :
  length (snd (updateExperimentSchedules env SCHEDULE_TYPE_value this experiment
                 history)) <= 6
  /\
  length (filter is_delete
            (snd (updateExperimentSchedules env SCHEDULE_TYPE_value this experiment
                    history))) <= 2
  /\
  length (filter is_stop
            (snd (updateExperimentSchedules env SCHEDULE_TYPE_value this experiment
                    history))) <= 2.
Proof.
  unfold_run. by_cases; simpl; lia.
Qed.

(** X14.  While the experiment is in state [SCHEDULED] and has an [endOn],
    a run deletes no row. *)
Theorem updateExperimentSchedules_scheduled_keeps_rows
    (experiment : Experiment.t) (history : list Call) :
  Experiment.state experiment = SCHEDULED ->
  Experiment.endOn experiment <> None ->
  existsb is_delete
    (snd (updateExperimentSchedules env SCHEDULE_TYPE_value this experiment history))
  = false.
Proof.
  intros Hs Hon. unfold_run. rewrite Hs.
  destruct (Experiment.endOn experiment) as [d|]; [|now elim Hon].
  by_cases; reflexivity.
Qed.

(** X15.  When the start schedule is due (state [SCHEDULED], and no start
    job or a start job whose time stamp differs from a set [startOn]), the
    run is: the look-up, the start of one execution, the logging of the error
    that [startExperimentSchedular] ends with.  The execution is started for
    [startOn] with the start callback; its body carries the [id] of the start
    job if there is one and otherwise the experiment's [id], an underscore
    and the value of [SCHEDULE_TYPE.START_EXPERIMENT].  The end schedule is
    not looked at. *)
Theorem updateExperimentSchedules_start_schedule_due
    (experiment : Experiment.t) (history : list Call)
    (scheduledJobs : list ScheduledJob.t) :
  scheduledJobRepository_find this history (Experiment.id experiment)
    = Resolves scheduledJobs ->
  Experiment.state experiment = SCHEDULED ->
  schedule_due (Experiment.startOn experiment)
    (find_type START_EXPERIMENT scheduledJobs) ->
  updateExperimentSchedules env SCHEDULE_TYPE_value this experiment history
  = (Ok tt,
     [ScheduledJobRepository_find (Experiment.id experiment);
      AWSService_stepFunctionStartExecution
        (execution_request env (Experiment.startOn experiment)
           (schedule_body_id SCHEDULE_TYPE_value experiment START_EXPERIMENT
              (find_type START_EXPERIMENT scheduledJobs))
           START_EXPERIMENT);
      Log_error "Error in experiment schedular "
        (schedular_error
           (awsService_stepFunctionStartExecution this
              (history ++ [ScheduledJobRepository_find (Experiment.id experiment)])%list
              (execution_request env (Experiment.startOn experiment)
                 (schedule_body_id SCHEDULE_TYPE_value experiment START_EXPERIMENT
                    (find_type START_EXPERIMENT scheduledJobs))
                 START_EXPERIMENT)))]).
Proof.
  intros Hfind Hs Hdue.
  unfold updateExperimentSchedules, updateExperimentSchedules_try.
  rewrite (try_catch_bind_ok _ _ _ _
             (find_resolves this experiment history Hfind)).
  assert (Hrun :
    updateStartSchedule env SCHEDULE_TYPE_value this experiment
      (find_type START_EXPERIMENT scheduledJobs)
      (history ++ [ScheduledJobRepository_find (Experiment.id experiment)])%list
    = (Err (schedular_error
              (awsService_stepFunctionStartExecution this
                 (history ++ [ScheduledJobRepository_find (Experiment.id experiment)])%list
                 (execution_request env (Experiment.startOn experiment)
                    (schedule_body_id SCHEDULE_TYPE_value experiment START_EXPERIMENT
                       (find_type START_EXPERIMENT scheduledJobs))
                    START_EXPERIMENT))),
       [AWSService_stepFunctionStartExecution
          (execution_request env (Experiment.startOn experiment)
             (schedule_body_id SCHEDULE_TYPE_value experiment START_EXPERIMENT
                (find_type START_EXPERIMENT scheduledJobs))
             START_EXPERIMENT)])).
  { unfold updateStartSchedule. rewrite Hs. simpl.
    destruct (find_type START_EXPERIMENT scheduledJobs) as [d|]; simpl in *.
    - destruct Hdue as [Hon Hne].
      destruct (Experiment.startOn experiment) as [x|]; [|now elim Hon].
      assert (Hneq : strict_neq (ScheduledJob.timeStamp d) (Some x) = true).
      { now apply strict_neq_differ. }
      simpl. rewrite Hneq. apply startExperimentSchedular_bind.
    - apply startExperimentSchedular_bind. }
  unfold try_catch at 1 2. rewrite (bind_err _ _ _ Hrun). reflexivity.
Qed.

(** X16.  When the start block has completed and the end schedule is due
    (the end condition holds, and there is no end job or one whose time stamp
    differs from [endOn]), the run goes on with the start of one execution
    for [endOn] with the end callback, whose body carries the [id] of the end
    job or else the experiment's [id], an underscore and the value of
    [SCHEDULE_TYPE.END_EXPERIMENT], and ends with the logging of the error
    that [startExperimentSchedular] ends with. *)
Theorem updateExperimentSchedules_end_schedule_due
    (experiment : Experiment.t) (history issued : list Call)
    (scheduledJobs : list ScheduledJob.t) :
  scheduledJobRepository_find this history (Experiment.id experiment)
    = Resolves scheduledJobs ->
  updateStartSchedule env SCHEDULE_TYPE_value this experiment
    (find_type START_EXPERIMENT scheduledJobs)
    (history ++ [ScheduledJobRepository_find (Experiment.id experiment)])%list
    = (Ok tt, issued) ->
  Experiment.state experiment <> ENROLLMENT_COMPLETE ->
  Experiment.state experiment <> CANCELLED ->
  Experiment.endOn experiment <> None ->
  schedule_due (Experiment.endOn experiment)
    (find_type END_EXPERIMENT scheduledJobs) ->
  updateExperimentSchedules env SCHEDULE_TYPE_value this experiment history
  = (Ok tt,
     (ScheduledJobRepository_find (Experiment.id experiment)
      :: issued ++
         [AWSService_stepFunctionStartExecution
            (execution_request env (Experiment.endOn experiment)
               (schedule_body_id SCHEDULE_TYPE_value experiment END_EXPERIMENT
                  (find_type END_EXPERIMENT scheduledJobs))
               END_EXPERIMENT);
          Log_error "Error in experiment schedular "
            (schedular_error
               (awsService_stepFunctionStartExecution this
                  ((history ++ [ScheduledJobRepository_find (Experiment.id experiment)])
                   ++ issued)%list
                  (execution_request env (Experiment.endOn experiment)
                     (schedule_body_id SCHEDULE_TYPE_value experiment END_EXPERIMENT
                        (find_type END_EXPERIMENT scheduledJobs))
                     END_EXPERIMENT)))])%list).
Proof.
  intros Hfind Hstart H1 H2 Hon Hdue.
  unfold updateExperimentSchedules, updateExperimentSchedules_try.
  rewrite (try_catch_bind_ok _ _ _ _
             (find_resolves this experiment history Hfind)).
  rewrite (try_catch_bind_ok _ _ _ _ Hstart).
  assert (Hrun :
    updateEndSchedule env SCHEDULE_TYPE_value this experiment
      (find_type END_EXPERIMENT scheduledJobs)
      ((history ++ [ScheduledJobRepository_find (Experiment.id experiment)]) ++ issued)%list
    = (Err (schedular_error
              (awsService_stepFunctionStartExecution this
                 ((history ++ [ScheduledJobRepository_find (Experiment.id experiment)])
                  ++ issued)%list
                 (execution_request env (Experiment.endOn experiment)
                    (schedule_body_id SCHEDULE_TYPE_value experiment END_EXPERIMENT
                       (find_type END_EXPERIMENT scheduledJobs))
                    END_EXPERIMENT))),
       [AWSService_stepFunctionStartExecution
          (execution_request env (Experiment.endOn experiment)
             (schedule_body_id SCHEDULE_TYPE_value experiment END_EXPERIMENT
                (find_type END_EXPERIMENT scheduledJobs))
             END_EXPERIMENT)])).
  { unfold updateEndSchedule.
    rewrite (EXPERIMENT_STATE_eqb_neq H1), (EXPERIMENT_STATE_eqb_neq H2).
    destruct (Experiment.endOn experiment) as [x|]; [|now elim Hon]. simpl.
    destruct (find_type END_EXPERIMENT scheduledJobs) as [d|]; simpl in *.
    - destruct Hdue as [_ Hne].
      assert (Hneq : strict_neq (ScheduledJob.timeStamp d) (Some x) = true).
      { now apply strict_neq_differ. }
      rewrite Hneq. apply startExperimentSchedular_bind.
    - apply startExperimentSchedular_bind. }
  unfold try_catch. rewrite Hrun. simpl. reflexivity.
Qed.

End Runs.

(** ** [typeormLoader] on every input *)

Section LoaderRuns.

Import TypeormLoader.

Variable env : Env.t.
Variable createConnection : ConnectionOptions -> Answer Connection.


(** X19.  The loader throws a [SERVER_ERROR] only for a rejection of
    [createConnection]: then [getConnectionOptions] has resolved, the error
    is [DB_UNREACHABLE] or [DB_AUTH_FAIL], the rejection was written to the
    console and the settings are as they were.  A rejection of
    [getConnectionOptions] is never classified. *)
Theorem typeormLoader_server_error_origin
    (getConnectionOptions : Answer ConnectionOptions)
    (settings : option MicroframeworkSettings) (type : SERVER_ERROR) :
  settled (typeormLoader env getConnectionOptions createConnection settings)
    = Err (Error_of type) ->
  exists loaded error,
    getConnectionOptions = Resolves loaded
    /\ createConnection (assign loaded env) = Rejects error
    /\ (type = DB_UNREACHABLE \/ type = DB_AUTH_FAIL)
    /\ console (typeormLoader env getConnectionOptions createConnection settings)
       = [error]
    /\ settings_after (typeormLoader env getConnectionOptions createConnection settings)
       = settings.
Proof.
  unfold typeormLoader.
  destruct getConnectionOptions as [loaded|reason]; simpl; [|discriminate].
  destruct (createConnection (assign loaded env)) as [connection|error] eqn:Hc; simpl;
    [discriminate|].
  intros H. exists loaded, error.
  destruct (is_ECONNREFUSED error); injection H as <-; repeat split; auto.
Qed.

(** X20.  A run that completes has written nothing to the console, and a
    run that does not complete leaves the settings as they were: nothing is
    stored and no shutdown handler is registered. *)
Theorem typeormLoader_failure_keeps_settings
    (getConnectionOptions : Answer ConnectionOptions)
    (settings : option MicroframeworkSettings) :
  (settled (typeormLoader env getConnectionOptions createConnection settings) = Ok tt ->
   console (typeormLoader env getConnectionOptions createConnection settings) = [])
  /\
  (settled (typeormLoader env getConnectionOptions createConnection settings) <> Ok tt ->
   settings_after (typeormLoader env getConnectionOptions createConnection settings)
   = settings).
Proof.
  unfold typeormLoader.
  destruct getConnectionOptions as [loaded|reason]; simpl.
  - destruct (createConnection (assign loaded env)) as [connection|error]; simpl.
    + split; [reflexivity | intros H; now elim H].
    + split; [destruct (is_ECONNREFUSED error); discriminate | reflexivity].
  - split; [discriminate | reflexivity].
Qed.

End LoaderRuns.

(** ** Instances of the further properties *)

Section FurtherInstances.

Import InMemory.


(** X3 on a job without [experimentId]. *)
Lemma startExperiment_job_without_experimentId_instance :
  startExperiment systemUserDoc
    (collaborators [Faults.looseJob] [] [systemUserDoc] "arn:new") "loose" []
  = (Ok EmptyObject, [ScheduledJobRepository_findOne "loose"]).
Proof.
  apply (startExperiment_job_without_experimentId systemUserDoc
           (collaborators [Faults.looseJob] [] [systemUserDoc] "arn:new")
           "loose" [] (job := Faults.looseJob)).
  - reflexivity.
  - left. reflexivity.
Defined.

(** X4 on a job of experiment [e9], which is not in the table. *)
Lemma startExperiment_endExperiment_orphan_job_instance :
  startExperiment systemUserDoc
    (collaborators [Faults.orphanJob] [] [systemUserDoc] "arn:new")
    "e9_START_EXPERIMENT" []
  = (Ok EmptyObject,
     [ScheduledJobRepository_findOne "e9_START_EXPERIMENT";
      ExperimentRepository_findOne (Some "e9")])
  /\
  endExperiment systemUserDoc
    (collaborators [Faults.orphanJob] [] [systemUserDoc] "arn:new")
    "e9_START_EXPERIMENT" []
  = (Ok EmptyObject,
     [ScheduledJobRepository_findOne "e9_START_EXPERIMENT";
      ExperimentRepository_findOne (Some "e9")]).
Proof.
  apply (startExperiment_endExperiment_orphan_job systemUserDoc
           (collaborators [Faults.orphanJob] [] [systemUserDoc] "arn:new")
           "e9_START_EXPERIMENT" (experimentId := "e9") [] (job := Faults.orphanJob)).
  - reflexivity.
  - reflexivity.
  - discriminate.
  - reflexivity.
Defined.

(** X5 on a job without [experimentId] and a repository that answers the
    look-up by [undefined] with a row. *)
Lemma endExperiment_any_experimentId_instance :
  snd (endExperiment systemUserDoc
         (Faults.any_experiment [Faults.looseJob] (experiment ENROLLING None None))
         "loose" [])
  = [ScheduledJobRepository_findOne "loose";
     ExperimentRepository_findOne None;
     UserRepository_findOne "system";
     ExperimentService_updateState None ENROLLMENT_COMPLETE (Some systemUserDoc)].
Proof.
  apply (endExperiment_any_experimentId systemUserDoc
           (Faults.any_experiment [Faults.looseJob] (experiment ENROLLING None None))
           "loose" [] (job := Faults.looseJob)
           (experiment := experiment ENROLLING None None)
           (systemUser := Some systemUserDoc)).
  - reflexivity.
  - reflexivity.
  - reflexivity.
Defined.

(** X6 on the start job of experiment [e1]. *)
Lemma startExperiment_endExperiment_transitions_instance :
  (ENROLLING = ENROLLING /\ truthy_string (Some "e1") = true)
  /\ ENROLLMENT_COMPLETE = ENROLLMENT_COMPLETE.
Proof.
  split.
  - apply (startExperiment_endExperiment_transitions systemUserDoc
             (collaborators [startJob; endJob] [experiment SCHEDULED (Some 1000%Z) None]
                [systemUserDoc] "arn:new")
             "e1_START_EXPERIMENT" [] (Some "e1") ENROLLING (Some systemUserDoc)).
    simpl. right. right. right. left. reflexivity.
  - apply (startExperiment_endExperiment_transitions systemUserDoc
             (collaborators [startJob; endJob] [experiment SCHEDULED (Some 1000%Z) None]
                [systemUserDoc] "arn:new")
             "e1_START_EXPERIMENT" [] (Some "e1") ENROLLMENT_COMPLETE
             (Some systemUserDoc)).
    simpl. right. right. right. left. reflexivity.
Defined.

(** X7 when every collaborator is unreachable. *)
Lemma startExperiment_endExperiment_lookup_rejects_instance :
  startExperiment systemUserDoc (unreachable timed_out) "e1_START_EXPERIMENT" []
  = (Err (Rejected timed_out), [ScheduledJobRepository_findOne "e1_START_EXPERIMENT"])
  /\
  endExperiment systemUserDoc (unreachable timed_out) "e1_START_EXPERIMENT" []
  = (Err (Rejected timed_out), [ScheduledJobRepository_findOne "e1_START_EXPERIMENT"]).
Proof.
  apply (startExperiment_endExperiment_lookup_rejects systemUserDoc
           (unreachable timed_out) "e1_START_EXPERIMENT" [] (reason := timed_out)).
  reflexivity.
Defined.

(** X9 when every collaborator is unreachable. *)
Lemma updateExperimentSchedules_lookup_rejects_instance :
  updateExperimentSchedules env SCHEDULE_TYPE_value (unreachable timed_out)
    (experiment SCHEDULED (Some 1000%Z) None) []
  = (Ok tt,
     [ScheduledJobRepository_find "e1";
      Log_error "Error in experiment schedular " (Rejected timed_out)]).
Proof.
  apply (updateExperimentSchedules_lookup_rejects env SCHEDULE_TYPE_value
           (unreachable timed_out) (experiment SCHEDULED (Some 1000%Z) None) []
           (reason := timed_out)).
  reflexivity.
Defined.

(** X10 on an [ENROLLING] experiment whose start job cannot be deleted. *)
Lemma updateExperimentSchedules_delete_rejects_instance :
  updateExperimentSchedules env SCHEDULE_TYPE_value
    (Faults.delete_rejects [startJob] timed_out) (experiment ENROLLING None None) []
  = (Ok tt,
     [ScheduledJobRepository_find "e1";
      ScheduledJobRepository_delete "e1_START_EXPERIMENT";
      Log_error "Error in experiment schedular " (Rejected timed_out)]).
Proof.
  apply (updateExperimentSchedules_delete_rejects env SCHEDULE_TYPE_value
           (Faults.delete_rejects [startJob] timed_out)
           (experiment ENROLLING None None) []
           (scheduledJobs := [startJob]) (doc := startJob) (reason := timed_out)).
  - discriminate.
  - reflexivity.
  - reflexivity.
  - reflexivity.
Defined.

(** X11 on a cancelled experiment without jobs. *)
Lemma updateExperimentSchedules_nothing_to_do_instance :
  updateExperimentSchedules env SCHEDULE_TYPE_value (collaborators [] [] [] "arn:new")
    (experiment CANCELLED (Some 1000%Z) (Some 2000%Z)) []
  = (Ok tt, [ScheduledJobRepository_find "e1"]).
Proof.
  apply (updateExperimentSchedules_nothing_to_do env SCHEDULE_TYPE_value
           (collaborators [] [] [] "arn:new")
           (experiment := experiment CANCELLED (Some 1000%Z) (Some 2000%Z)) []
           (scheduledJobs := [])).
  - reflexivity.
  - reflexivity.
  - reflexivity.
  - discriminate.
  - right. left. reflexivity.
Defined.

(** X14 on a scheduled experiment whose start date has moved. *)
Lemma updateExperimentSchedules_scheduled_keeps_rows_instance :
  existsb is_delete
    (snd (updateExperimentSchedules env SCHEDULE_TYPE_value
            (collaborators [startJob; endJob] [] [] "arn:new")
            (experiment SCHEDULED (Some 1500%Z) (Some 2000%Z)) []))
  = false.
Proof.
  apply (updateExperimentSchedules_scheduled_keeps_rows env SCHEDULE_TYPE_value
           (collaborators [startJob; endJob] [] [] "arn:new")
           (experiment SCHEDULED (Some 1500%Z) (Some 2000%Z)) []).
  - reflexivity.
  - discriminate.
Defined.

(** X15 on a scheduled experiment whose start date has moved, and on one
    without a start job. *)
Lemma updateExperimentSchedules_start_schedule_due_instance :
  updateExperimentSchedules env SCHEDULE_TYPE_value
    (collaborators [startJob; endJob] [] [] "arn:new")
    (experiment SCHEDULED (Some 1500%Z) (Some 2000%Z)) []
  = (Ok tt,
     [ScheduledJobRepository_find "e1";
      AWSService_stepFunctionStartExecution
        {| stateMachineArn := "arn:machine";
           input := {| input_timeStamp := Some (given 1500);
                       input_body_id := "e1_START_EXPERIMENT";
                       input_url := "http://host/scheduledJobs/start" |} |};
      logged])
  /\
  updateExperimentSchedules env SCHEDULE_TYPE_value
    (collaborators [] [] [] "arn:new")
    (experiment SCHEDULED None None) []
  = (Ok tt,
     [ScheduledJobRepository_find "e1";
      AWSService_stepFunctionStartExecution
        {| stateMachineArn := "arn:machine";
           input := {| input_timeStamp := None;
                       input_body_id := "e1_START_EXPERIMENT";
                       input_url := "http://host/scheduledJobs/start" |} |};
      logged]).
Proof.
  split.
  - apply (updateExperimentSchedules_start_schedule_due env SCHEDULE_TYPE_value
             (collaborators [startJob; endJob] [] [] "arn:new")
             (experiment SCHEDULED (Some 1500%Z) (Some 2000%Z)) []
             (scheduledJobs := [startJob; endJob])).
    + reflexivity.
    + reflexivity.
    + split; discriminate.
  - apply (updateExperimentSchedules_start_schedule_due env SCHEDULE_TYPE_value
             (collaborators [] [] [] "arn:new")
             (experiment SCHEDULED None None) []
             (scheduledJobs := [])).
    + reflexivity.
    + reflexivity.
    + exact I.
Defined.

(** X16 on an [ENROLLING] experiment that still has its start job and gets
    an end date. *)
Lemma updateExperimentSchedules_end_schedule_due_instance :
  updateExperimentSchedules env SCHEDULE_TYPE_value
    (collaborators [startJob] [] [] "arn:new")
    (experiment ENROLLING None (Some 3000%Z)) []
  = (Ok tt,
     [ScheduledJobRepository_find "e1";
      ScheduledJobRepository_delete "e1_START_EXPERIMENT";
      AWSService_stepFunctionStopExecution (Some "arn:old-start");
      AWSService_stepFunctionStartExecution
        {| stateMachineArn := "arn:machine";
           input := {| input_timeStamp := Some (given 3000);
                       input_body_id := "e1_END_EXPERIMENT";
                       input_url := "http://host/scheduledJobs/end" |} |};
      logged]).
Proof.
  apply (updateExperimentSchedules_end_schedule_due env SCHEDULE_TYPE_value
           (collaborators [startJob] [] [] "arn:new")
           (experiment ENROLLING None (Some 3000%Z)) []
           (issued := [ScheduledJobRepository_delete "e1_START_EXPERIMENT";
                       AWSService_stepFunctionStopExecution (Some "arn:old-start")])
           (scheduledJobs := [startJob])).
  - reflexivity.
  - reflexivity.
  - discriminate.
  - discriminate.
  - discriminate.
  - exact I.
Defined.

(** X17 on a cancelled experiment that still has its end job. *)
Lemma updateExperimentSchedules_deletes_end_job_instance :
  exists rest,
    snd (updateExperimentSchedules env SCHEDULE_TYPE_value
           (collaborators [endJob] [] [] "arn:new")
           (experiment CANCELLED None (Some 2000%Z)) [])
    = (ScheduledJobRepository_find "e1"
       :: [] ++
          [ScheduledJobRepository_delete "e1_END_EXPERIMENT";
           AWSService_stepFunctionStopExecution (Some "arn:old-end")] ++ rest)%list.
Proof.
  apply (updateExperimentSchedules_deletes_end_job env SCHEDULE_TYPE_value
           (collaborators [endJob] [] [] "arn:new")
           (experiment CANCELLED None (Some 2000%Z)) []
           (issued := []) (scheduledJobs := [endJob]) (doc := endJob)).
  - reflexivity.
  - reflexivity.
  - right. left. reflexivity.
  - reflexivity.
  - reflexivity.
Defined.


(** X19 on a refused connection. *)
Lemma typeormLoader_server_error_origin_instance :
  exists loaded error,
    Resolves LoaderInputs.loaded = Resolves loaded
    /\ @Rejects TypeormLoader.Connection LoaderInputs.refused = Rejects error
    /\ (DB_UNREACHABLE = DB_UNREACHABLE \/ DB_UNREACHABLE = DB_AUTH_FAIL)
    /\ TypeormLoader.console
         (TypeormLoader.typeormLoader env (Resolves LoaderInputs.loaded)
            (fun _ => Rejects LoaderInputs.refused) (Some LoaderInputs.settings))
       = [error]
    /\ TypeormLoader.settings_after
         (TypeormLoader.typeormLoader env (Resolves LoaderInputs.loaded)
            (fun _ => Rejects LoaderInputs.refused) (Some LoaderInputs.settings))
       = Some LoaderInputs.settings.
Proof.
  apply (typeormLoader_server_error_origin env (fun _ => Rejects LoaderInputs.refused)
           (Resolves LoaderInputs.loaded) (Some LoaderInputs.settings)
           (type := DB_UNREACHABLE)).
  reflexivity.
Defined.

(** X20 on a connection that is established and on a rejection of
    [getConnectionOptions]. *)
Lemma typeormLoader_failure_keeps_settings_instance :
  TypeormLoader.console
    (TypeormLoader.typeormLoader env (Resolves LoaderInputs.loaded)
       (fun _ => Resolves 7%nat) (Some LoaderInputs.settings)) = []
  /\
  TypeormLoader.settings_after
    (TypeormLoader.typeormLoader env (Rejects LoaderInputs.refused)
       (fun _ => Resolves 7%nat) (Some LoaderInputs.settings))
  = Some LoaderInputs.settings.
Proof.
  split.
  - apply (typeormLoader_failure_keeps_settings env (fun _ => Resolves 7%nat)
             (Resolves LoaderInputs.loaded) (Some LoaderInputs.settings)).
    reflexivity.
  - apply (typeormLoader_failure_keeps_settings env (fun _ => Resolves 7%nat)
             (Rejects LoaderInputs.refused) (Some LoaderInputs.settings)).
    discriminate.
Defined.

End FurtherInstances.
